(** * Reflection pattern: bounded chat histories and the generate/reflect loop

    A shallow embedding of
      - [agentic_patterns/utils/completions.py]
        ([build_prompt_structure], [update_chat_history], [ChatHistory],
        [FixedFirstChatHistory], [completions_create]),
      - [agentic_patterns/s01_reflection/prompts.py] and
        [agentic_patterns/1_reflection/prompts.py] ([compose_prompt]),
      - [agentic_patterns/s01_reflection/agent.py] ([ReflectionAgent]).

    Python objects that are mutated in place (the two histories, the client)
    are threaded explicitly; a Python exception is a [Raise] outcome.  Console
    output ([verbose], [fancy_step_tracker]) has no influence on any value and
    is left out. *)

From Stdlib Require Import ZArith String Ascii Lia.
From stdpp Require Import base list strings.

Local Open Scope string_scope.
Local Open Scope list_scope.
Local Open Scope Z_scope.

(** ** Outcomes of Python calls *)

(** The exceptions that can reach the code under study: [IndexError] comes
    from [list.pop] and from [response.choices[0]]; [ServiceError] stands for
    whatever the remote client throws. *)
Inductive exn : Type :=
  | IndexError (reason : string)
  | ServiceError (reason : string).

Inductive outcome (A : Type) : Type :=
  | Return (a : A)
  | Raise (e : exn).
Arguments Return {A} a.
Arguments Raise {A} e.

Definition is_return {A : Type} (o : outcome A) : bool :=
  match o with Return _ => true | Raise _ => false end.

(** ** Messages *)

(** A message is the dict [{"role": role, "content": prompt}]. *)
Record Message : Type := mkMessage { role : string; content : string }.

Definition is_empty_str (s : string) : bool :=
  match s with EmptyString => true | String _ _ => false end.

(** [build_prompt_structure(prompt, role, tag="")]. *)
Definition build_prompt_structure (prompt role tag : string) : Message :=
  let prompt :=
    if is_empty_str tag then prompt
    else "<" +:+ tag +:+ ">" +:+ prompt +:+ "</" +:+ tag +:+ ">" in
  {| role := role; content := prompt |}.

(** ** Python lists *)

(** [list.pop(i)] for an index [i >= 0]: the list and what the call yields.
    Out of range the list is left as it was. *)
Definition list_pop {A : Type} (i : nat) (l : list A) : list A * outcome A :=
  match l with
  | [] => (l, Raise (IndexError "pop from empty list"))
  | _ :: _ =>
      match l !! i with
      | Some x => (delete i l, Return x)
      | None => (l, Raise (IndexError "pop index out of range"))
      end
  end.

(** ** Chat history containers *)

(** The class of a history object; it selects the [append] that runs. *)
Inductive HistoryClass : Type := Plain | FixedFirst.

(** A [ChatHistory] (or subclass) instance: the list it extends and its
    [total_length] attribute. *)
Record ChatHistory : Type := mkHistory {
  class_of : HistoryClass;
  items : list Message;
  total_length : Z
}.

(** [ChatHistory.__init__(messages=None, total_length=-1)], inherited
    unchanged by [FixedFirstChatHistory]. *)
Definition ChatHistory_init (cls : HistoryClass)
    (messages : option (list Message)) (total_length : Z) : ChatHistory :=
  let messages := match messages with None => [] | Some m => m end in
  {| class_of := cls; items := messages; total_length := total_length |}.

(** A method of a history: the object after the call and the call's outcome. *)
Definition method (A : Type) : Type := ChatHistory -> ChatHistory * outcome A.

Definition with_items (h : ChatHistory) (l : list Message) : ChatHistory :=
  {| class_of := class_of h; items := l; total_length := total_length h |}.

Definition len (h : ChatHistory) : Z := Z.of_nat (length (items h)).

(** [self.pop(i)]. *)
Definition pop (i : nat) : method Message :=
  fun h => let '(l, r) := list_pop i (items h) in (with_items h l, r).

(** [super().append(msg)]: the list's own append. *)
Definition list_append (msg : Message) : method unit :=
  fun h => (with_items h (items h ++ [msg]), Return tt).

(** The position [append] evicts at: [self.pop(0)] in [ChatHistory],
    [self.pop(1)] in [FixedFirstChatHistory]. *)
Definition evict_index (cls : HistoryClass) : nat :=
  match cls with Plain => 0%nat | FixedFirst => 1%nat end.

(** [ChatHistory.append] and [FixedFirstChatHistory.append], dispatched on the
    class of the receiver. *)
Definition append (msg : Message) : method unit :=
  fun h =>
    if len h =? total_length h then
      match pop (evict_index (class_of h)) h with
      | (h', Return _) => list_append msg h'
      | (h', Raise e) => (h', Raise e)
      end
    else list_append msg h.

(** [update_chat_history(history, msg, role)]. *)
Definition update_chat_history (msg role : string) : method unit :=
  append (build_prompt_structure msg role "").

(** A sequence of [append] calls, one statement after the other; the first
    exception ends it. *)
Fixpoint appends (msgs : list Message) : method unit :=
  fun h =>
    match msgs with
    | [] => (h, Return tt)
    | m :: rest =>
        match append m h with
        | (h', Return _) => appends rest h'
        | (h', Raise e) => (h', Raise e)
        end
    end.

(** ** Prompts *)

(** Python's [x or ""] on an optional string: [None] and the empty string
    are both falsy. *)
Definition or_empty (custom : option string) : string :=
  match custom with
  | None => ""
  | Some c => if is_empty_str c then "" else c
  end.

(** [agentic_patterns/s01_reflection/prompts.py]. *)
Module s01_prompts.

Definition BASE_GENERATION_SYSTEM_PROMPT : string := "
Your task is to Generate the best content possible for the user's request.
If the user provides critique, respond with a revised version of your previous attempt.
You must always output the revised content.
".

Definition BASE_REFLECTION_SYSTEM_PROMPT : string := "
You are tasked with generating critique and recommendations to the user's generated content.
If the user content has something wrong or something to be improved, output a list of recommendations
and critiques. If the user content is ok and there's nothing to change, output this: <OK>
".

(** [return (custom or "") + base]. *)
Definition compose_prompt (custom : option string) (base : string) : string :=
  or_empty custom +:+ base.

End s01_prompts.

(** [agentic_patterns/1_reflection/prompts.py], the older copy of the same
    module. *)
Module reflection_1_prompts.

Definition BASE_GENERATION_SYSTEM_PROMPT : string := "
Your task is to Generate the best content possible for the user's request.
If the user provides critique, respond with a revised version of your previous attempt.
You must always output the revised content.
".

Definition BASE_REFLECTION_SYSTEM_PROMPT : string := "
You are tasked with generating critique and recommendations to the user's generated content.
If the user content has something wrong or something to be improved, output a list of recommendations
and critiques. If the user content is ok and there's nothing to change, output this: <OK>
".

(** [return (custom or "") + base]. *)
Definition compose_prompt (custom : option string) (base : string) : string :=
  or_empty custom +:+ base.

End reflection_1_prompts.

(** ** Settings *)

Module settings.

(** The frozen dataclass [ModelConfig]. *)
Record ModelConfig : Type := mkModelConfig { model : string }.

(** [ModelConfig()]. *)
Definition default : ModelConfig := {| model := "llama-3.3-70b-versatile" |}.

End settings.

(** ** The substring test *)

(** [s] begins with [p]. *)
Fixpoint starts_with (p s : string) : bool :=
  match p, s with
  | EmptyString, _ => true
  | String _ _, EmptyString => false
  | String a p', String b s' => Ascii.eqb a b && starts_with p' s'
  end.

(** Python's [sub in s] on strings: [sub] occurs at some position of [s]. *)
Fixpoint contains (sub s : string) : bool :=
  if starts_with sub s then true
  else match s with
       | EmptyString => false
       | String _ s' => contains sub s'
       end.

(** ** The reflection agent *)

(** Which of the two public methods issued a request: the [log_title] that
    [generate] and [reflect] hand to [_request_completion]. *)
Inductive Stage : Type := GENERATION | REFLECTION.

Definition Stage_eqb (a b : Stage) : bool :=
  match a, b with
  | GENERATION, GENERATION | REFLECTION, REFLECTION => true
  | _, _ => false
  end.

(** One request as [_request_completion] saw it: the history sent, the model
    named, and what [completions_create] yielded. *)
Record Call : Type := mkCall {
  stage : Stage;
  sent : list Message;
  sent_model : string;
  reply : outcome string
}.

(** What the service answers: for each entry of [response.choices] its
    [message.content], [None] when the content is Python's [None]. *)
Record Response : Type := mkResponse { choices : list (option string) }.

(** [str(x)] on an optional string. *)
Definition py_str (x : option string) : string :=
  match x with None => "None" | Some s => s end.

Section Agent.

(** The injected client.  Its state is whatever the object remembers between
    calls; [chat_completions_create c messages model] is
    [c.chat.completions.create(messages=messages, model=model)], which reads
    the history it is handed and does not change it. *)
Variable Client : Type.
Variable chat_completions_create :
  Client -> list Message -> string -> Client * outcome Response.

(** [completions_create(client, messages, model)]. *)
Definition completions_create (client : Client) (messages : list Message)
    (model : string) : Client * outcome string :=
  match chat_completions_create client messages model with
  | (client', Raise e) => (client', Raise e)
  | (client', Return response) =>
      match choices response with
      | [] => (client', Raise (IndexError "list index out of range"))
      | c :: _ => (client', Return (py_str c))
      end
  end.

(** A [ReflectionAgent] instance. *)
Record ReflectionAgent : Type := mkAgent { model : string; client : Client }.

(** [ReflectionAgent.__init__(model_cfg=None, client=...)] with an injected
    client. *)
Definition ReflectionAgent_init (model_cfg : option settings.ModelConfig)
    (client : Client) : ReflectionAgent :=
  {| model := settings.model
                (match model_cfg with Some c => c | None => settings.default end);
     client := client |}.

(** The objects [run] works on: the agent and the locals of [run]. *)
Record Frame : Type := mkFrame {
  self : ReflectionAgent;
  generation_history : ChatHistory;
  reflection_history : ChatHistory;
  final_generation : string
}.

(** A statement of [run]: the frame it leaves, its outcome, and the requests
    it issued, oldest first. *)
Definition eff (A : Type) : Type := Frame -> Frame * outcome A * list Call.

Definition ret {A : Type} (a : A) : eff A := fun fr => (fr, Return a, []).

Definition bind {A B : Type} (m : eff A) (k : A -> eff B) : eff B :=
  fun fr =>
    match m fr with
    | (fr1, Raise e, ev) => (fr1, Raise e, ev)
    | (fr1, Return a, ev) =>
        match k a fr1 with
        | (fr2, r, ev') => (fr2, r, ev ++ ev')
        end
    end.

Notation "x <- m ;; k" := (bind m (fun x => k))
  (at level 100, m at next level, right associativity).
Notation "m ;;; k" := (bind m (fun _ => k))
  (at level 100, right associativity).

(** [self._request_completion(history, log_title=...)]. *)
Definition _request_completion (log_title : Stage)
    (history : Frame -> ChatHistory) : eff string :=
  fun fr =>
    let messages := items (history fr) in
    let '(client', output) :=
      completions_create (client (self fr)) messages (model (self fr)) in
    ({| self := {| model := model (self fr); client := client' |};
        generation_history := generation_history fr;
        reflection_history := reflection_history fr;
        final_generation := final_generation fr |},
     output,
     [ {| stage := log_title; sent := messages;
          sent_model := model (self fr); reply := output |} ]).

(** [self.generate(generation_history)]. *)
Definition generate : eff string :=
  _request_completion GENERATION generation_history.

(** [self.reflect(reflection_history)]. *)
Definition reflect : eff string :=
  _request_completion REFLECTION reflection_history.

(** [final_generation = text]. *)
Definition set_final_generation (text : string) : eff unit :=
  fun fr =>
    ({| self := self fr;
        generation_history := generation_history fr;
        reflection_history := reflection_history fr;
        final_generation := text |}, Return tt, []).

(** A method call on [generation_history]. *)
Definition on_generation_history {A : Type} (m : method A) : eff A :=
  fun fr =>
    let '(h, r) := m (generation_history fr) in
    ({| self := self fr;
        generation_history := h;
        reflection_history := reflection_history fr;
        final_generation := final_generation fr |}, r, []).

(** A method call on [reflection_history]. *)
Definition on_reflection_history {A : Type} (m : method A) : eff A :=
  fun fr =>
    let '(h, r) := m (reflection_history fr) in
    ({| self := self fr;
        generation_history := generation_history fr;
        reflection_history := h;
        final_generation := final_generation fr |}, r, []).

(** How an iteration of the [for] loop ends. *)
Inductive LoopCtl : Type := Continue | Break.

(** The body of [for step in range(n_steps)]. *)
Definition loop_body (step : Z) : eff LoopCtl :=
  text <- generate ;;
  set_final_generation text ;;;
  on_generation_history (update_chat_history text "assistant") ;;;
  on_reflection_history (update_chat_history text "user") ;;;
  critique <- reflect ;;
  if contains "<OK>" critique then ret Break
  else
    on_generation_history (update_chat_history critique "user") ;;;
    on_reflection_history (update_chat_history critique "assistant") ;;;
    ret Continue.

(** [range(n)]: empty for [n <= 0]. *)
Definition range (n : Z) : list Z :=
  map Z.of_nat (seq 0 (Z.to_nat n)).

Fixpoint for_loop (steps : list Z) : eff unit :=
  match steps with
  | [] => ret tt
  | step :: rest =>
      ctl <- loop_body step ;;
      match ctl with
      | Break => ret tt
      | Continue => for_loop rest
      end
  end.

(** The frame [run] enters its loop with. *)
Definition run_setup (agent : ReflectionAgent) (user_msg : string)
    (generation_system_prompt reflection_system_prompt : option string)
    : Frame :=
  let gen_sys_prompt :=
    s01_prompts.compose_prompt generation_system_prompt
      s01_prompts.BASE_GENERATION_SYSTEM_PROMPT in
  let ref_sys_prompt :=
    s01_prompts.compose_prompt reflection_system_prompt
      s01_prompts.BASE_REFLECTION_SYSTEM_PROMPT in
  {| self := agent;
     generation_history :=
       ChatHistory_init FixedFirst
         (Some [ build_prompt_structure gen_sys_prompt "system" "";
                 build_prompt_structure user_msg "user" "" ]) 3;
     reflection_history :=
       ChatHistory_init FixedFirst
         (Some [ build_prompt_structure ref_sys_prompt "system" "" ]) 3;
     final_generation := "" |}.

(** [ReflectionAgent.run(user_msg, generation_system_prompt=None,
    reflection_system_prompt=None, n_steps=10)]. *)
Definition run (agent : ReflectionAgent) (user_msg : string)
    (generation_system_prompt reflection_system_prompt : option string)
    (n_steps : Z) : Frame * outcome string * list Call :=
  let fr0 :=
    run_setup agent user_msg generation_system_prompt
      reflection_system_prompt in
  match for_loop (range n_steps) fr0 with
  | (fr, Raise e, tr) => (fr, Raise e, tr)
  | (fr, Return _, tr) => (fr, Return (final_generation fr), tr)
  end.

End Agent.

Arguments mkAgent {Client} model client.
Arguments model {Client} r.
Arguments client {Client} r.
Arguments ReflectionAgent_init {Client} model_cfg client.
Arguments self {Client} f.
Arguments generation_history {Client} f.
Arguments reflection_history {Client} f.
Arguments final_generation {Client} f.
Arguments run_setup {Client} agent user_msg _ _.
Arguments completions_create {Client} _ client messages model.
Arguments loop_body {Client} _ step _.
Arguments for_loop {Client} _ steps _.
Arguments run {Client} _ agent user_msg _ _ n_steps.

(** What [run] returned or raised, the frame it left, and its requests. *)
Definition run_result {F : Type} (out : F * outcome string * list Call)
    : outcome string := snd (fst out).
Definition run_frame {F : Type} (out : F * outcome string * list Call) : F :=
  fst (fst out).
Definition run_trace {F : Type} (out : F * outcome string * list Call)
    : list Call := snd out.

(** The requests of one stage, oldest first. *)
Definition calls_of (s : Stage) (tr : list Call) : list Call :=
  List.filter (fun c => Stage_eqb (stage c) s) tr.

(** ** A test double *)

(** A scripted client, as a test would inject: it holds the replies still to
    be given, hands them out one per request whatever the request is, and
    fails once the script is used up. *)
Module Stub.

Definition Client : Type := list (outcome Response).

Definition chat_completions_create (script : Client)
    (messages : list Message) (model : string) : Client * outcome Response :=
  match script with
  | [] => ([], Raise (ServiceError "no scripted reply left"))
  | r :: rest => (rest, r)
  end.

Definition says (text : string) : outcome Response :=
  Return {| choices := [Some text] |}.

Definition agent (script : Client) : ReflectionAgent Client :=
  ReflectionAgent_init None script.

Definition run (script : Client) (user_msg : string) (n_steps : Z) :=
  run chat_completions_create (agent script) user_msg None None n_steps.

End Stub.

(** ** Vocabulary of the statements *)

(** The least capacity at which the evicted position exists in a full
    history: 1 for [ChatHistory], 2 for [FixedFirstChatHistory]. *)
Definition min_capacity (cls : HistoryClass) : Z :=
  Z.of_nat (S (evict_index cls)).

(** What [append] leaves of the old items when it succeeds. *)
Definition retained (h : ChatHistory) : list Message :=
  if len h =? total_length h
  then delete (evict_index (class_of h)) (items h)
  else items h.

(** The items of a [FixedFirstChatHistory] of capacity 3 after a successful
    [append]. *)
Definition push3 (m : Message) (l : list Message) : list Message :=
  retained (mkHistory FixedFirst l 3) ++ [m].

(** The message [update_chat_history] appends. *)
Definition msg (role text : string) : Message :=
  build_prompt_structure text role "".

(** The request returned a text, and the text passes [P]. *)
Definition replied_with (P : string -> bool) (c : Call) : bool :=
  match reply c with
  | Return text => P text
  | Raise _ => false
  end.

(** Every request of stage [s] in the trace returned a text passing [P]. *)
Definition all_replied (s : Stage) (P : string -> bool) (tr : list Call)
    : bool :=
  forallb (replied_with P) (calls_of s tr).

Definition any_text (text : string) : bool := true.
Definition has_OK (text : string) : bool := contains "<OK>" text.
Definition lacks_OK (text : string) : bool := negb (contains "<OK>" text).

(** The two system prompts [run] composes. *)
Definition gen_sys_prompt (custom : option string) : string :=
  s01_prompts.compose_prompt custom s01_prompts.BASE_GENERATION_SYSTEM_PROMPT.
Definition ref_sys_prompt (custom : option string) : string :=
  s01_prompts.compose_prompt custom s01_prompts.BASE_REFLECTION_SYSTEM_PROMPT.

(** A frame whose two histories are [FixedFirstChatHistory] of capacity 3,
    as [run] builds them. *)
Definition frame3 {Client : Type} (a : ReflectionAgent Client)
    (g r : list Message) (fin : string) : Frame Client :=
  {| self := a;
     generation_history := mkHistory FixedFirst g 3;
     reflection_history := mkHistory FixedFirst r 3;
     final_generation := fin |}.

(** The agent once its client has answered and become [c]. *)
Definition moved {Client : Type} (a : ReflectionAgent Client) (c : Client)
    : ReflectionAgent Client :=
  {| model := model a; client := c |}.

(** The stages of [n] complete iterations: a generate request, then a
    reflect request, [n] times. *)
Fixpoint alternating (n : nat) : list Stage :=
  match n with
  | O => []
  | S n' => GENERATION :: REFLECTION :: alternating n'
  end.

(** The system prompt at the head of the history of a stage. *)
Definition stage_prompt (gsp rsp : option string) (s : Stage) : string :=
  match s with
  | GENERATION => gen_sys_prompt gsp
  | REFLECTION => ref_sys_prompt rsp
  end.

(** * Properties *)

(** ** The substring test *)



(** ** Histories *)

Lemma append_below (m : Message) (h : ChatHistory) :
  len h <> total_length h ->
  append m h = (with_items h (items h ++ [m]), Return tt).
Proof.
  intros H. unfold append. apply Z.eqb_neq in H. now rewrite H.
Qed.

Lemma append_full (m : Message) (h : ChatHistory) :
  len h = total_length h ->
  (evict_index (class_of h) < length (items h))%nat ->
  append m h =
    (with_items h (delete (evict_index (class_of h)) (items h) ++ [m]),
     Return tt).
Proof.
  intros Hfull Hlt. unfold append, pop, list_pop.
  apply Z.eqb_eq in Hfull. rewrite Hfull.
  destruct (lookup_lt_is_Some_2 _ _ Hlt) as [x Hx].
  destruct (items h) as [|y l] eqn:E; [simpl in Hlt; lia|].
  rewrite Hx. reflexivity.
Qed.

(** With room for the evicted position, [append] cannot fail. *)
Lemma append_ok (m : Message) (h : ChatHistory) :
  len h <= total_length h ->
  min_capacity (class_of h) <= total_length h ->
  append m h = (with_items h (retained h ++ [m]), Return tt).
Proof.
  intros Hle Hmin. unfold retained.
  destruct (Z.eqb_spec (len h) (total_length h)) as [Heq|Hne].
  - apply append_full; [exact Heq|].
    unfold min_capacity, len in *. lia.
  - now apply append_below.
Qed.

Lemma length_retained (h : ChatHistory) :
  len h <= total_length h ->
  min_capacity (class_of h) <= total_length h ->
  Z.of_nat (length (retained h ++ [])) < total_length h.
Proof.
  intros Hle Hmin. rewrite app_nil_r. unfold retained.
  destruct (Z.eqb_spec (len h) (total_length h)) as [Heq|Hne].
  - unfold min_capacity, len in *.
    assert (Hlt : (evict_index (class_of h) < length (items h))%nat) by lia.
    pose proof (length_delete _ _ (lookup_lt_is_Some_2 _ _ Hlt)). lia.
  - unfold len in *. lia.
Qed.

Lemma retained_sublist (h : ChatHistory) : retained h `sublist_of` items h.
Proof.
  unfold retained. destruct (len h =? total_length h).
  - apply sublist_delete.
  - reflexivity.
Qed.

(** The capacity invariant is kept by every run of appends. *)
Lemma appends_ok (news : list Message) (h : ChatHistory) :
  len h <= total_length h ->
  min_capacity (class_of h) <= total_length h ->
  snd (appends news h) = Return tt
  /\ class_of (fst (appends news h)) = class_of h
  /\ total_length (fst (appends news h)) = total_length h
  /\ len (fst (appends news h)) <= total_length h.
Proof.
  revert h; induction news as [|m news IH]; intros h Hle Hmin; simpl.
  - auto.
  - rewrite (append_ok m h Hle Hmin).
    pose proof (length_retained h Hle Hmin) as Hlen.
    rewrite app_nil_r in Hlen.
    set (h' := with_items h (retained h ++ [m])).
    assert (Hle' : len h' <= total_length h').
    { unfold h', len; simpl. rewrite length_app; simpl. lia. }
    destruct (IH h' Hle' Hmin) as (H1 & H2 & H3 & H4).
    auto.
Qed.

(** A full [FixedFirstChatHistory] of capacity two or more evicts behind its
    first message. *)
Lemma fixed_first_step (m m0 : Message) (rest : list Message) (cap : Z) :
  2 <= cap ->
  exists rest',
    append m (mkHistory FixedFirst (m0 :: rest) cap)
    = (mkHistory FixedFirst (m0 :: rest') cap, Return tt).
Proof.
  intros Hcap. set (h := mkHistory FixedFirst (m0 :: rest) cap).
  destruct (Z.eq_dec (len h) (total_length h)) as [Heq|Hne].
  - exists (delete 0%nat rest ++ [m]).
    rewrite append_full; [reflexivity|exact Heq|].
    unfold len in Heq; simpl in *. lia.
  - exists (rest ++ [m]). now rewrite append_below.
Qed.

Lemma fixed_first_appends (news : list Message) (m0 : Message)
    (rest : list Message) (cap : Z) :
  2 <= cap ->
  exists rest',
    appends news (mkHistory FixedFirst (m0 :: rest) cap)
    = (mkHistory FixedFirst (m0 :: rest') cap, Return tt).
Proof.
  intros Hcap. revert rest; induction news as [|m news IH]; intros rest; simpl.
  - now exists rest.
  - destruct (fixed_first_step m m0 rest cap Hcap) as [rest1 ->].
    apply IH.
Qed.

(** C3 (FixedFirst invariant).  A [FixedFirstChatHistory] of capacity at
    least 2 that was constructed with at least one seed message keeps that
    first seed at position 0 through any sequence of appends, none of which
    fails: the first message is never evicted. *)
Theorem fixed_first_head_never_evicted
    (seeds news : list Message) (cap : Z) (m0 : Message) :
  2 <= cap ->
  seeds !! 0%nat = Some m0 ->
  snd (appends news (ChatHistory_init FixedFirst (Some seeds) cap)) = Return tt
  /\ items (fst (appends news (ChatHistory_init FixedFirst (Some seeds) cap)))
       !! 0%nat = Some m0.
Proof.
  intros Hcap Hseed. destruct seeds as [|m rest]; [discriminate|].
  simpl in Hseed. injection Hseed as ->.
  unfold ChatHistory_init.
  destruct (fixed_first_appends news m0 rest cap Hcap) as [rest' ->].
  split; reflexivity.
Qed.

Lemma fixed_first_head_never_evicted_witness :
  snd (appends [mkMessage "assistant" "a"; mkMessage "user" "b";
                mkMessage "assistant" "c"]
         (ChatHistory_init FixedFirst
            (Some [mkMessage "system" "s"; mkMessage "user" "u"]) 3))
    = Return tt
  /\ items (fst (appends [mkMessage "assistant" "a"; mkMessage "user" "b";
                          mkMessage "assistant" "c"]
                   (ChatHistory_init FixedFirst
                      (Some [mkMessage "system" "s"; mkMessage "user" "u"]) 3)))
       !! 0%nat = Some (mkMessage "system" "s").
Proof.
  apply (fixed_first_head_never_evicted
           [mkMessage "system" "s"; mkMessage "user" "u"]
           [mkMessage "assistant" "a"; mkMessage "user" "b";
            mkMessage "assistant" "c"] 3 (mkMessage "system" "s")).
  - lia.
  - reflexivity.
Defined.

(** C4, as the code has it (capacity invariant).  A history of either class
    that was constructed with no more seed messages than its capacity, the
    capacity being at least 1 (at least 2 for [FixedFirstChatHistory]), never
    holds more messages than its capacity after any sequence of appends, and
    none of them fails.  In every state so reached, [append] puts the new
    message at the end behind the retained messages, which keep their order;
    below capacity all messages are retained. *)
Theorem capacity_invariant
    (cls : HistoryClass) (seeds news : list Message) (cap : Z) :
  Z.of_nat (length seeds) <= cap ->
  min_capacity cls <= cap ->
  let h := fst (appends news (ChatHistory_init cls (Some seeds) cap)) in
  snd (appends news (ChatHistory_init cls (Some seeds) cap)) = Return tt
  /\ len h <= cap
  /\ forall m : Message,
       exists kept : list Message,
         append m h = (with_items h (kept ++ [m]), Return tt)
         /\ kept `sublist_of` items h
         /\ (len h < cap -> kept = items h).
Proof.
  intros Hseeds Hmin h.
  destruct (appends_ok news (ChatHistory_init cls (Some seeds) cap))
    as (Hr & Hc & Ht & Hl); [exact Hseeds|exact Hmin|].
  fold h in Hc, Ht, Hl. simpl in Hc, Ht, Hl.
  split; [exact Hr|]. split; [exact Hl|].
  intros m. exists (retained h). split; [|split].
  - apply append_ok; rewrite ?Hc, ?Ht; assumption.
  - apply retained_sublist.
  - intros Hlt. unfold retained.
    destruct (Z.eqb_spec (len h) (total_length h)); [lia|reflexivity].
Qed.

Lemma capacity_invariant_witness :
  let h := fst (appends [mkMessage "user" "b"; mkMessage "assistant" "c"]
                  (ChatHistory_init Plain (Some [mkMessage "system" "a"]) 2)) in
  snd (appends [mkMessage "user" "b"; mkMessage "assistant" "c"]
         (ChatHistory_init Plain (Some [mkMessage "system" "a"]) 2)) = Return tt
  /\ len h <= 2
  /\ forall m : Message,
       exists kept : list Message,
         append m h = (with_items h (kept ++ [m]), Return tt)
         /\ kept `sublist_of` items h
         /\ (len h < 2 -> kept = items h).
Proof.
  apply (capacity_invariant Plain [mkMessage "system" "a"]
           [mkMessage "user" "b"; mkMessage "assistant" "c"] 2).
  - simpl. lia.
  - unfold min_capacity. simpl. lia.
Defined.

(** C4, as stated, fails: a [ChatHistory] seeded with more messages than its
    finite capacity never evicts and only grows. *)
Lemma capacity_exceeded_when_overseeded :
  total_length
    (ChatHistory_init Plain
       (Some [mkMessage "system" "a"; mkMessage "user" "b"]) 1) <> -1
  /\ appends [mkMessage "assistant" "c"]
       (ChatHistory_init Plain
          (Some [mkMessage "system" "a"; mkMessage "user" "b"]) 1)
     = (mkHistory Plain
          [mkMessage "system" "a"; mkMessage "user" "b";
           mkMessage "assistant" "c"] 1, Return tt)
  /\ ~ len (fst (appends [mkMessage "assistant" "c"]
                   (ChatHistory_init Plain
                      (Some [mkMessage "system" "a"; mkMessage "user" "b"]) 1)))
       <= 1.
Proof.
  split; [|split].
  - simpl. lia.
  - reflexivity.
  - vm_compute. intros H. apply H. reflexivity.
Qed.

(** Below the minimal capacity [append] raises instead of inserting: at
    capacity 0 in both classes, the eviction finds the list empty. *)
Lemma append_raises_at_capacity_zero (cls : HistoryClass) (m : Message) :
  append m (ChatHistory_init cls None 0)
  = (ChatHistory_init cls None 0, Raise (IndexError "pop from empty list")).
Proof. destruct cls; reflexivity. Qed.

(** C10.  Appending to a [FixedFirstChatHistory] whose [total_length] is 1 and
    which holds exactly one message raises [IndexError] from [self.pop(1)] and
    leaves the history as it was: the first message stays, the new one is not
    inserted. *)
Theorem fixed_first_capacity_one_append_raises (m0 m : Message) :
  append m (mkHistory FixedFirst [m0] 1)
  = (mkHistory FixedFirst [m0] 1,
     Raise (IndexError "pop index out of range")).
Proof. reflexivity. Qed.

(** ** Prompt composition *)

(** C8 (composer identity).  In both copies of [prompts.py],
    [compose_prompt(None, base)] and [compose_prompt("", base)] are [base],
    and [compose_prompt(X, base)] is [X] immediately followed by [base]; being
    a function of its two arguments, it is deterministic. *)
Theorem compose_prompt_identity (base : string) :
  s01_prompts.compose_prompt None base = base
  /\ s01_prompts.compose_prompt (Some "") base = base
  /\ (forall X : string, s01_prompts.compose_prompt (Some X) base = X +:+ base)
  /\ reflection_1_prompts.compose_prompt None base = base
  /\ reflection_1_prompts.compose_prompt (Some "") base = base
  /\ (forall X : string,
        reflection_1_prompts.compose_prompt (Some X) base = X +:+ base).
Proof.
  repeat split; try reflexivity; intros X; destruct X; reflexivity.
Qed.

(** ** The loop of [run] *)

Lemma append_cap3 (m : Message) (l : list Message) :
  append m (mkHistory FixedFirst l 3)
  = (mkHistory FixedFirst (push3 m l) 3, Return tt).
Proof.
  unfold push3, retained. set (h := mkHistory FixedFirst l 3).
  destruct (Z.eqb_spec (len h) (total_length h)) as [Heq|Hne].
  - rewrite append_full; [reflexivity|exact Heq|].
    unfold len in Heq; simpl in *. lia.
  - now rewrite append_below.
Qed.

Lemma last_push3 (m : Message) (l : list Message) : last (push3 m l) = Some m.
Proof. unfold push3. apply last_snoc. Qed.

Lemma push3_two (m a b : Message) : push3 m [a; b] = [a; b; m].
Proof. reflexivity. Qed.

Lemma push3_three (m a b c : Message) : push3 m [a; b; c] = [a; c; m].
Proof. reflexivity. Qed.

Lemma push3_one (m a : Message) : push3 m [a] = [a; m].
Proof. reflexivity. Qed.

Section AgentProperties.

Context {Client : Type}.
Variable create :
  Client -> list Message -> string -> Client * outcome Response.

(** One iteration, request by request. *)
Lemma loop_body_unfold (step : Z) (a : ReflectionAgent Client)
    (g r : list Message) (fin : string) :
  loop_body create step (frame3 a g r fin) =
  match completions_create create (client a) g (model a) with
  | (c1, Raise e) =>
      (frame3 (moved a c1) g r fin, Raise e,
       [mkCall GENERATION g (model a) (Raise e)])
  | (c1, Return text) =>
      let g1 := push3 (msg "assistant" text) g in
      let r1 := push3 (msg "user" text) r in
      let gen_call := mkCall GENERATION g (model a) (Return text) in
      match completions_create create c1 r1 (model a) with
      | (c2, Raise e) =>
          (frame3 (moved a c2) g1 r1 text, Raise e,
           [gen_call; mkCall REFLECTION r1 (model a) (Raise e)])
      | (c2, Return critique) =>
          let ref_call := mkCall REFLECTION r1 (model a) (Return critique) in
          if contains "<OK>" critique
          then (frame3 (moved a c2) g1 r1 text, Return Break,
                [gen_call; ref_call])
          else (frame3 (moved a c2)
                  (push3 (msg "user" critique) g1)
                  (push3 (msg "assistant" critique) r1) text,
                Return Continue, [gen_call; ref_call])
      end
  end.
Proof.
  unfold loop_body, bind, generate, reflect, _request_completion,
    set_final_generation, on_generation_history, on_reflection_history,
    update_chat_history, ret, frame3, moved; simpl.
  destruct (completions_create create (client a) g (model a))
    as [c1 [text|e]]; simpl; [|reflexivity].
  fold (msg "assistant" text) (msg "user" text).
  rewrite append_cap3; simpl. rewrite append_cap3; simpl.
  destruct (completions_create create c1 (push3 (msg "user" text) r) (model a))
    as [c2 [critique|e]]; simpl; [|reflexivity].
  destruct (contains "<OK>" critique); simpl; [reflexivity|].
  fold (msg "assistant" critique) (msg "user" critique).
  rewrite append_cap3; simpl. rewrite append_cap3; simpl. reflexivity.
Qed.

Lemma for_loop_cons (step : Z) (rest : list Z) (fr : Frame Client) :
  for_loop create (step :: rest) fr =
  match loop_body create step fr with
  | (fr1, Raise e, ev) => (fr1, Raise e, ev)
  | (fr1, Return Break, ev) => (fr1, Return tt, ev ++ [])
  | (fr1, Return Continue, ev) =>
      match for_loop create rest fr1 with
      | (fr2, res, ev') => (fr2, res, ev ++ ev')
      end
  end.
Proof.
  simpl. unfold bind.
  destruct (loop_body create step fr) as [[fr1 [[|]|e]] ev]; reflexivity.
Qed.

Lemma run_setup_frame3 (a : ReflectionAgent Client) (user_msg : string)
    (gsp rsp : option string) :
  run_setup a user_msg gsp rsp
  = frame3 a [msg "system" (gen_sys_prompt gsp); msg "user" user_msg]
      [msg "system" (ref_sys_prompt rsp)] "".
Proof. reflexivity. Qed.

Lemma range_nonpos (n : Z) : n <= 0 -> range n = [].
Proof.
  intros H. unfold range. replace (Z.to_nat n) with 0%nat by lia. reflexivity.
Qed.

Lemma range_pos (n : Z) : 1 <= n -> exists rest, range n = 0 :: rest.
Proof.
  intros H. unfold range.
  destruct (Z.to_nat n) as [|k] eqn:E; [lia|].
  simpl. eauto.
Qed.

Lemma run_without_steps (a : ReflectionAgent Client)
    (user_msg : string) (gsp rsp : option string) (n_steps : Z) :
  n_steps <= 0 ->
  run create a user_msg gsp rsp n_steps
  = (run_setup a user_msg gsp rsp, Return "", []).
Proof.
  intros H. unfold run. rewrite (range_nonpos n_steps H). reflexivity.
Qed.

(** C6 (degenerate [n_steps]).  With [n_steps <= 0], [run] raises nothing,
    issues no request, leaves both histories as they were seeded, and
    returns the empty string. *)
Theorem run_nonpositive_steps_is_noop (a : ReflectionAgent Client)
    (user_msg : string) (gsp rsp : option string) (n_steps : Z) :
  n_steps <= 0 ->
  run create a user_msg gsp rsp n_steps
  = (run_setup a user_msg gsp rsp, Return "", []).
Proof. apply run_without_steps. Qed.

(** C5, as the code has it.  Neither parameter is checked: constructing a
    [FixedFirstChatHistory] with a capacity below 2 yields a history holding
    the seeds and that capacity, and [run] with a negative [n_steps] issues
    no request and returns the empty string.  No precondition error is
    raised. *)
Theorem invalid_parameters_are_accepted (a : ReflectionAgent Client)
    (user_msg : string) (gsp rsp : option string) (n_steps : Z)
    (seeds : list Message) (cap : Z) :
  cap < 2 ->
  n_steps < 0 ->
  ChatHistory_init FixedFirst (Some seeds) cap = mkHistory FixedFirst seeds cap
  /\ run_result (run create a user_msg gsp rsp n_steps) = Return ""
  /\ run_trace (run create a user_msg gsp rsp n_steps) = [].
Proof.
  intros _ Hn. split; [reflexivity|].
  rewrite run_without_steps by lia. split; reflexivity.
Qed.

(** C1 (sentinel termination).  If, in a run with [n_steps >= 1], every
    generate request returns a text and every reflect request returns a text
    containing ["<OK>"], then the run consists of exactly one generate request
    followed by exactly one reflect request, and returns the text of that
    generate request; the critique is in neither history. *)
Theorem sentinel_stops_after_one_round (a : ReflectionAgent Client)
    (user_msg : string) (gsp rsp : option string) (n_steps : Z) :
  1 <= n_steps ->
  all_replied GENERATION any_text
    (run_trace (run create a user_msg gsp rsp n_steps)) = true ->
  all_replied REFLECTION has_OK
    (run_trace (run create a user_msg gsp rsp n_steps)) = true ->
  exists candidate critique : string,
    run_trace (run create a user_msg gsp rsp n_steps)
    = [ mkCall GENERATION
          [msg "system" (gen_sys_prompt gsp); msg "user" user_msg]
          (model a) (Return candidate);
        mkCall REFLECTION
          [msg "system" (ref_sys_prompt rsp); msg "user" candidate]
          (model a) (Return critique) ]
    /\ has_OK critique = true
    /\ run_result (run create a user_msg gsp rsp n_steps) = Return candidate
    /\ items (generation_history (run_frame (run create a user_msg gsp rsp n_steps)))
       = [msg "system" (gen_sys_prompt gsp); msg "user" user_msg;
          msg "assistant" candidate]
    /\ items (reflection_history (run_frame (run create a user_msg gsp rsp n_steps)))
       = [msg "system" (ref_sys_prompt rsp); msg "user" candidate].
Proof.
  intros Hn. unfold run. rewrite run_setup_frame3.
  destruct (range_pos n_steps Hn) as [rest ->].
  rewrite for_loop_cons, loop_body_unfold.
  destruct (completions_create create (client a) _ (model a))
    as [c1 [candidate|e]]; [|discriminate].
  cbv zeta. rewrite push3_two, push3_one.
  destruct (completions_create create c1 _ (model a))
    as [c2 [critique|e]]; [|discriminate].
  destruct (contains "<OK>" critique) eqn:HOK.
  - intros _ _. exists candidate, critique.
    unfold has_OK. rewrite HOK. repeat split.
  - destruct (for_loop create rest _) as [[fr2 res] ev'].
    destruct res; intros _ H; unfold all_replied, replied_with, has_OK in H;
      simpl in H; rewrite HOK in H; discriminate.
Qed.

(** A loop in which every generate request returns and no critique holds the
    sentinel runs all its steps: one generate and one reflect request per
    step, and the last text generated is what [final_generation] holds. *)
Lemma for_loop_exhausts (steps : list Z) :
  forall (a : ReflectionAgent Client) (g r : list Message) (fin : string),
    all_replied GENERATION any_text
      (snd (for_loop create steps (frame3 a g r fin))) = true ->
    all_replied REFLECTION lacks_OK
      (snd (for_loop create steps (frame3 a g r fin))) = true ->
    exists texts : list string,
      snd (fst (for_loop create steps (frame3 a g r fin))) = Return tt
      /\ map reply (calls_of GENERATION
                      (snd (for_loop create steps (frame3 a g r fin))))
         = map Return texts
      /\ length texts = length steps
      /\ length (calls_of REFLECTION
                   (snd (for_loop create steps (frame3 a g r fin))))
         = length steps
      /\ final_generation (fst (fst (for_loop create steps (frame3 a g r fin))))
         = default fin (last texts).
Proof.
  induction steps as [|step rest IH]; intros a g r fin.
  - intros _ _. exists []. repeat split.
  - rewrite for_loop_cons, loop_body_unfold.
    destruct (completions_create create (client a) g (model a))
      as [c1 [text|e]]; [|discriminate].
    cbv zeta.
    destruct (completions_create create c1 _ (model a))
      as [c2 [critique|e]]; [|intros _; discriminate].
    destruct (contains "<OK>" critique) eqn:HOK.
    { intros _ H. unfold all_replied, replied_with, lacks_OK in H.
      simpl in H. rewrite HOK in H. discriminate. }
    specialize (IH (moved a c2)
                  (push3 (msg "user" critique) (push3 (msg "assistant" text) g))
                  (push3 (msg "assistant" critique) (push3 (msg "user" text) r))
                  text).
    destruct (for_loop create rest _) as [[fr2 res] ev'].
    simpl in IH. intros H1 H2.
    unfold all_replied, replied_with, lacks_OK in H1, H2.
    simpl in H1, H2. rewrite HOK in H2. simpl in H2.
    destruct (IH H1 H2) as (texts & Hres & Hgen & Hlen & Href & Hfin).
    exists (text :: texts). simpl.
    repeat split; try congruence.
    rewrite Hfin, last_cons. destruct (last texts); reflexivity.
Qed.

(** C2 (budget exhaustion).  If, in a run with [n_steps = 3], every generate
    request returns a text and every reflect request returns a text without
    ["<OK>"], then the run issues exactly 3 generate requests and exactly 3
    reflect requests, and returns the text of the third generate request. *)
Theorem budget_exhaustion_three_steps (a : ReflectionAgent Client)
    (user_msg : string) (gsp rsp : option string) :
  all_replied GENERATION any_text
    (run_trace (run create a user_msg gsp rsp 3)) = true ->
  all_replied REFLECTION lacks_OK
    (run_trace (run create a user_msg gsp rsp 3)) = true ->
  exists t1 t2 t3 : string,
    map reply (calls_of GENERATION (run_trace (run create a user_msg gsp rsp 3)))
    = [Return t1; Return t2; Return t3]
    /\ length (calls_of REFLECTION
                 (run_trace (run create a user_msg gsp rsp 3))) = 3%nat
    /\ run_result (run create a user_msg gsp rsp 3) = Return t3.
Proof.
  unfold run. rewrite run_setup_frame3.
  change (range 3) with [0; 1; 2].
  set (fr0 := frame3 a _ _ "").
  intros H1 H2.
  assert (Hex := for_loop_exhausts [0; 1; 2] a
                   [msg "system" (gen_sys_prompt gsp); msg "user" user_msg]
                   [msg "system" (ref_sys_prompt rsp)] "").
  fold fr0 in Hex.
  destruct (for_loop create [0; 1; 2] fr0) as [[fr res] tr].
  destruct res as [[]|e]; unfold run_trace, run_result in *; simpl in *.
  - destruct (Hex H1 H2) as (texts & _ & Hgen & Hlen & Href & Hfin).
    destruct texts as [|t1 [|t2 [|t3 [|t4 texts]]]]; try discriminate.
    exists t1, t2, t3. simpl in Hfin. rewrite Hfin. auto.
  - destruct (Hex H1 H2) as (texts & Hres & _). discriminate.
Qed.

(** A request that fails ends the loop on the spot: it is the last request
    issued, every request before it returned, its exception is the outcome of
    the loop, and the frame is left as the statements before the failure made
    it. *)
Lemma for_loop_failure (steps : list Z) :
  forall (a : ReflectionAgent Client) (g r : list Message) (fin : string)
         (i : nat) (failing : Call) (e : exn),
    snd (for_loop create steps (frame3 a g r fin)) !! i = Some failing ->
    reply failing = Raise e ->
    snd (fst (for_loop create steps (frame3 a g r fin))) = Raise e
    /\ exists earlier : list Call,
         snd (for_loop create steps (frame3 a g r fin)) = earlier ++ [failing]
         /\ length earlier = i
         /\ forallb (fun c => is_return (reply c)) earlier = true
         /\ (stage failing = REFLECTION ->
             exists (gen_call : Call) (candidate : string),
               last earlier = Some gen_call
               /\ stage gen_call = GENERATION
               /\ reply gen_call = Return candidate
               /\ last (items (generation_history
                    (fst (fst (for_loop create steps (frame3 a g r fin))))))
                  = Some (msg "assistant" candidate)
               /\ last (items (reflection_history
                    (fst (fst (for_loop create steps (frame3 a g r fin))))))
                  = Some (msg "user" candidate)).
Proof.
  induction steps as [|step rest IH]; intros a g r fin i failing e.
  - simpl. discriminate.
  - rewrite for_loop_cons, loop_body_unfold.
    destruct (completions_create create (client a) g (model a))
      as [c1 [text|e1]].
    2:{ simpl. destruct i as [|i]; simpl; [|discriminate].
        intros [= <-] [= <-]. split; [reflexivity|].
        exists []. repeat split. discriminate. }
    cbv zeta.
    destruct (completions_create create c1 _ (model a))
      as [c2 [critique|e2]].
    2:{ simpl. destruct i as [|[|i]]; simpl; try discriminate.
        - intros [= <-]; discriminate.
        - intros [= <-] [= <-]. split; [reflexivity|].
          eexists [_]. repeat split.
          intros _. eexists _, text. repeat split; apply last_push3. }
    destruct (contains "<OK>" critique) eqn:HOK.
    { simpl. destruct i as [|[|i]]; simpl; try discriminate;
        intros [= <-]; discriminate. }
    specialize (IH (moved a c2)
                  (push3 (msg "user" critique) (push3 (msg "assistant" text) g))
                  (push3 (msg "assistant" critique) (push3 (msg "user" text) r))
                  text).
    destruct (for_loop create rest _) as [[fr2 res] ev'].
    simpl in IH |- *.
    destruct i as [|[|i]]; simpl; try (intros [= <-]; discriminate).
    intros Hi He.
    destruct (IH i failing e Hi He) as (Hres & earlier & -> & Hlen & Hall & Href).
    split; [exact Hres|].
    eexists (_ :: _ :: earlier). repeat split.
    + simpl. now rewrite Hlen.
    + exact Hall.
    + intros Hst. destruct (Href Hst) as (gc & cand & Hlast & H1 & H2 & H3 & H4).
      exists gc, cand. repeat split; try assumption.
      rewrite !last_cons, Hlast. reflexivity.
Qed.

(** C7 (service failure).  When a request of [run] fails, [run] raises that
    very exception; the failed request is the last one issued, so nothing is
    retried, and every request before it returned.  The histories keep what
    was appended before the failure: if it was the reflect request that
    failed, the candidate generated in that step (the reply to the request
    just before) is the last message of the generation history, as
    [assistant], and the last message of the reflection history, as [user]. *)
Theorem service_error_propagates (a : ReflectionAgent Client)
    (user_msg : string) (gsp rsp : option string) (n_steps : Z)
    (i : nat) (failing : Call) (e : exn) :
  run_trace (run create a user_msg gsp rsp n_steps) !! i = Some failing ->
  reply failing = Raise e ->
  run_result (run create a user_msg gsp rsp n_steps) = Raise e
  /\ exists earlier : list Call,
       run_trace (run create a user_msg gsp rsp n_steps) = earlier ++ [failing]
       /\ length earlier = i
       /\ forallb (fun c => is_return (reply c)) earlier = true
       /\ (stage failing = REFLECTION ->
           exists (gen_call : Call) (candidate : string),
             last earlier = Some gen_call
             /\ stage gen_call = GENERATION
             /\ reply gen_call = Return candidate
             /\ last (items (generation_history
                  (run_frame (run create a user_msg gsp rsp n_steps))))
                = Some (msg "assistant" candidate)
             /\ last (items (reflection_history
                  (run_frame (run create a user_msg gsp rsp n_steps))))
                = Some (msg "user" candidate)).
Proof.
  unfold run. rewrite run_setup_frame3.
  set (fr0 := frame3 a _ _ "").
  assert (Hf := for_loop_failure (range n_steps) a
                  [msg "system" (gen_sys_prompt gsp); msg "user" user_msg]
                  [msg "system" (ref_sys_prompt rsp)] "" i failing e).
  fold fr0 in Hf.
  destruct (for_loop create (range n_steps) fr0) as [[fr res] tr].
  unfold run_trace, run_result, run_frame.
  destruct res as [[]|e']; simpl in *; intros Hi He;
    destruct (Hf Hi He) as (Hres & Hrest); [discriminate|].
  injection Hres as ->. split; [reflexivity|exact Hrest].
Qed.

Lemma push3_twice (m1 m2 s x : Message) (tl : list Message) :
  (length tl <= 1)%nat ->
  push3 m2 (push3 m1 (s :: x :: tl)) = [s; m1; m2].
Proof.
  destruct tl as [|y [|z tl]]; simpl; intros H; try lia; reflexivity.
Qed.

(** What each generate request of a loop is sent: the first one the
    generation history the loop starts with, every later one the first
    message of that history followed by the candidate and the critique of
    the step before. *)
Lemma for_loop_contexts (steps : list Z) :
  forall (a : ReflectionAgent Client) (s x : Message) (tl r : list Message)
         (fin : string),
    (length tl <= 1)%nat ->
    (forall first : Call,
        calls_of GENERATION
          (snd (for_loop create steps (frame3 a (s :: x :: tl) r fin)))
          !! 0%nat = Some first ->
        sent first = s :: x :: tl)
    /\ (forall (i : nat) (later : Call),
          calls_of GENERATION
            (snd (for_loop create steps (frame3 a (s :: x :: tl) r fin)))
            !! S i = Some later ->
          exists (gen_call ref_call : Call) (candidate critique : string),
            calls_of GENERATION
              (snd (for_loop create steps (frame3 a (s :: x :: tl) r fin)))
              !! i = Some gen_call
            /\ reply gen_call = Return candidate
            /\ calls_of REFLECTION
                 (snd (for_loop create steps (frame3 a (s :: x :: tl) r fin)))
                 !! i = Some ref_call
            /\ reply ref_call = Return critique
            /\ has_OK critique = false
            /\ sent later
               = [s; msg "assistant" candidate; msg "user" critique]).
Proof.
  induction steps as [|step rest IH]; intros a s x tl r fin Htl.
  - split; [intros first|intros i later]; discriminate.
  - rewrite for_loop_cons, loop_body_unfold.
    destruct (completions_create create (client a) _ (model a))
      as [c1 [text|e1]].
    2:{ split; [intros first [= <-]; reflexivity|intros i later; discriminate]. }
    cbv zeta.
    destruct (completions_create create c1 _ (model a))
      as [c2 [critique|e2]].
    2:{ split; [intros first [= <-]; reflexivity|intros i later; discriminate]. }
    destruct (contains "<OK>" critique) eqn:HOK.
    { split; [intros first [= <-]; reflexivity|intros i later; discriminate]. }
    rewrite (push3_twice _ _ s x tl Htl).
    specialize (IH (moved a c2) s (msg "assistant" text) [msg "user" critique]
                  (push3 (msg "assistant" critique) (push3 (msg "user" text) r))
                  text (le_n 1)).
    destruct (for_loop create rest _) as [[fr2 res] ev'].
    simpl in IH |- *. destruct IH as [IH0 IHS].
    split; [intros first [= <-]; reflexivity|].
    intros [|i] later Hlater.
    + eexists _, _, text, critique. repeat split.
      * exact HOK.
      * apply (IH0 later Hlater).
    + destruct (IHS i later Hlater)
        as (gc & rc & cand & crit & H1 & H2 & H3 & H4 & H5 & H6).
      exists gc, rc, cand, crit. auto 10.
Qed.

(** C9.  In any run, every generate request after the first is sent exactly
    three messages: the generation system prompt, the candidate of the step
    before as an [assistant] message, and the critique of the step before,
    which did not hold ["<OK>"], as a [user] message.  The caller's initial
    user message is no longer among them. *)
Theorem later_generations_see_only_last_round (a : ReflectionAgent Client)
    (user_msg : string) (gsp rsp : option string) (n_steps : Z)
    (i : nat) (later : Call) :
  calls_of GENERATION (run_trace (run create a user_msg gsp rsp n_steps))
    !! S i = Some later ->
  exists (gen_call ref_call : Call) (candidate critique : string),
    calls_of GENERATION (run_trace (run create a user_msg gsp rsp n_steps))
      !! i = Some gen_call
    /\ reply gen_call = Return candidate
    /\ calls_of REFLECTION (run_trace (run create a user_msg gsp rsp n_steps))
         !! i = Some ref_call
    /\ reply ref_call = Return critique
    /\ has_OK critique = false
    /\ sent later
       = [msg "system" (gen_sys_prompt gsp); msg "assistant" candidate;
          msg "user" critique].
Proof.
  unfold run. rewrite run_setup_frame3.
  destruct (for_loop_contexts (range n_steps) a
              (msg "system" (gen_sys_prompt gsp)) (msg "user" user_msg) []
              [msg "system" (ref_sys_prompt rsp)] "" (le_0_n 1)) as [_ HS].
  destruct (for_loop create (range n_steps) _) as [[fr res] tr].
  unfold run_trace. destruct res as [[]|e]; simpl in *; apply HS.
Qed.

End AgentProperties.

(** The exception of the client reaches [_request_completion] as it is. *)
Lemma completions_create_propagates {Client : Type}
    (create : Client -> list Message -> string -> Client * outcome Response)
    (c c' : Client) (messages : list Message) (model : string) (e : exn) :
  create c messages model = (c', Raise e) ->
  completions_create create c messages model = (c', Raise e).
Proof. intros H. unfold completions_create. now rewrite H. Qed.

(** ** The theorems at work on the scripted client *)

Lemma sentinel_stops_after_one_round_witness :
  exists candidate critique : string,
    run_trace (Stub.run [Stub.says "draft"; Stub.says "fine: <OK>";
                         Stub.says "unused"] "hi" 5)
    = [ mkCall GENERATION
          [msg "system" (gen_sys_prompt None); msg "user" "hi"]
          "llama-3.3-70b-versatile" (Return candidate);
        mkCall REFLECTION
          [msg "system" (ref_sys_prompt None); msg "user" candidate]
          "llama-3.3-70b-versatile" (Return critique) ]
    /\ has_OK critique = true
    /\ run_result (Stub.run [Stub.says "draft"; Stub.says "fine: <OK>";
                             Stub.says "unused"] "hi" 5) = Return candidate
    /\ items (generation_history
                (run_frame (Stub.run [Stub.says "draft"; Stub.says "fine: <OK>";
                                      Stub.says "unused"] "hi" 5)))
       = [msg "system" (gen_sys_prompt None); msg "user" "hi";
          msg "assistant" candidate]
    /\ items (reflection_history
                (run_frame (Stub.run [Stub.says "draft"; Stub.says "fine: <OK>";
                                      Stub.says "unused"] "hi" 5)))
       = [msg "system" (ref_sys_prompt None); msg "user" candidate].
Proof.
  apply (sentinel_stops_after_one_round Stub.chat_completions_create
           (Stub.agent [Stub.says "draft"; Stub.says "fine: <OK>";
                        Stub.says "unused"]) "hi" None None 5).
  - lia.
  - reflexivity.
  - reflexivity.
Defined.

Lemma budget_exhaustion_three_steps_witness :
  exists t1 t2 t3 : string,
    map reply
      (calls_of GENERATION
         (run_trace (Stub.run [Stub.says "d1"; Stub.says "k1"; Stub.says "d2";
                               Stub.says "k2"; Stub.says "d3"; Stub.says "k3";
                               Stub.says "d4"] "hi" 3)))
    = [Return t1; Return t2; Return t3]
    /\ length
         (calls_of REFLECTION
            (run_trace (Stub.run [Stub.says "d1"; Stub.says "k1"; Stub.says "d2";
                                  Stub.says "k2"; Stub.says "d3"; Stub.says "k3";
                                  Stub.says "d4"] "hi" 3))) = 3%nat
    /\ run_result (Stub.run [Stub.says "d1"; Stub.says "k1"; Stub.says "d2";
                             Stub.says "k2"; Stub.says "d3"; Stub.says "k3";
                             Stub.says "d4"] "hi" 3) = Return t3.
Proof.
  apply (budget_exhaustion_three_steps Stub.chat_completions_create
           (Stub.agent [Stub.says "d1"; Stub.says "k1"; Stub.says "d2";
                        Stub.says "k2"; Stub.says "d3"; Stub.says "k3";
                        Stub.says "d4"]) "hi" None None).
  - reflexivity.
  - reflexivity.
Defined.

Lemma run_nonpositive_steps_is_noop_witness :
  Stub.run [Stub.says "draft"] "hi" 0
  = (run_setup (Stub.agent [Stub.says "draft"]) "hi" None None, Return "", []).
Proof.
  apply (run_nonpositive_steps_is_noop Stub.chat_completions_create
           (Stub.agent [Stub.says "draft"]) "hi" None None 0).
  lia.
Defined.

Lemma invalid_parameters_are_accepted_witness :
  ChatHistory_init FixedFirst (Some [mkMessage "system" "s"]) 1
  = mkHistory FixedFirst [mkMessage "system" "s"] 1
  /\ run_result (Stub.run [Stub.says "draft"] "hi" (-1)) = Return ""
  /\ run_trace (Stub.run [Stub.says "draft"] "hi" (-1)) = [].
Proof.
  apply (invalid_parameters_are_accepted Stub.chat_completions_create
           (Stub.agent [Stub.says "draft"]) "hi" None None (-1)
           [mkMessage "system" "s"] 1).
  - lia.
  - lia.
Defined.

(** C5, as stated, fails: a [FixedFirstChatHistory] of capacity 1 is
    constructed, and [run] with [n_steps = -1] returns the empty string. *)
Lemma invalid_parameters_raise_nothing :
  ChatHistory_init FixedFirst (Some [mkMessage "system" "s"]) 1
  = mkHistory FixedFirst [mkMessage "system" "s"] 1
  /\ run_result (Stub.run [Stub.says "draft"] "hi" (-1)) = Return "".
Proof. split; reflexivity. Qed.

Lemma service_error_propagates_witness :
  run_result (Stub.run [Stub.says "d1"; Stub.says "k1"; Stub.says "d2";
                        Raise (ServiceError "quota"); Stub.says "d3"] "hi" 5)
  = Raise (ServiceError "quota")
  /\ exists earlier : list Call,
       run_trace (Stub.run [Stub.says "d1"; Stub.says "k1"; Stub.says "d2";
                            Raise (ServiceError "quota"); Stub.says "d3"] "hi" 5)
       = earlier
         ++ [mkCall REFLECTION
               [msg "system" (ref_sys_prompt None); msg "assistant" "k1";
                msg "user" "d2"]
               "llama-3.3-70b-versatile" (Raise (ServiceError "quota"))]
       /\ length earlier = 3%nat
       /\ forallb (fun c => is_return (reply c)) earlier = true
       /\ (REFLECTION = REFLECTION ->
           exists (gen_call : Call) (candidate : string),
             last earlier = Some gen_call
             /\ stage gen_call = GENERATION
             /\ reply gen_call = Return candidate
             /\ last (items (generation_history
                  (run_frame (Stub.run [Stub.says "d1"; Stub.says "k1";
                                        Stub.says "d2";
                                        Raise (ServiceError "quota");
                                        Stub.says "d3"] "hi" 5))))
                = Some (msg "assistant" candidate)
             /\ last (items (reflection_history
                  (run_frame (Stub.run [Stub.says "d1"; Stub.says "k1";
                                        Stub.says "d2";
                                        Raise (ServiceError "quota");
                                        Stub.says "d3"] "hi" 5))))
                = Some (msg "user" candidate)).
Proof.
  apply (service_error_propagates Stub.chat_completions_create
           (Stub.agent [Stub.says "d1"; Stub.says "k1"; Stub.says "d2";
                        Raise (ServiceError "quota"); Stub.says "d3"])
           "hi" None None 5 3
           (mkCall REFLECTION
              [msg "system" (ref_sys_prompt None); msg "assistant" "k1";
               msg "user" "d2"]
              "llama-3.3-70b-versatile" (Raise (ServiceError "quota")))
           (ServiceError "quota")).
  - reflexivity.
  - reflexivity.
Defined.

Lemma later_generations_see_only_last_round_witness :
  exists (gen_call ref_call : Call) (candidate critique : string),
    calls_of GENERATION
      (run_trace (Stub.run [Stub.says "d1"; Stub.says "k1"; Stub.says "d2";
                            Stub.says "k2"; Stub.says "d3"; Stub.says "<OK>"]
                    "hi" 5))
      !! 1%nat = Some gen_call
    /\ reply gen_call = Return candidate
    /\ calls_of REFLECTION
         (run_trace (Stub.run [Stub.says "d1"; Stub.says "k1"; Stub.says "d2";
                               Stub.says "k2"; Stub.says "d3"; Stub.says "<OK>"]
                       "hi" 5))
         !! 1%nat = Some ref_call
    /\ reply ref_call = Return critique
    /\ has_OK critique = false
    /\ [msg "system" (gen_sys_prompt None); msg "assistant" "d2";
        msg "user" "k2"]
       = [msg "system" (gen_sys_prompt None); msg "assistant" candidate;
          msg "user" critique].
Proof.
  apply (later_generations_see_only_last_round Stub.chat_completions_create
           (Stub.agent [Stub.says "d1"; Stub.says "k1"; Stub.says "d2";
                        Stub.says "k2"; Stub.says "d3"; Stub.says "<OK>"])
           "hi" None None 5 1
           (mkCall GENERATION
              [msg "system" (gen_sys_prompt None); msg "assistant" "d2";
               msg "user" "k2"]
              "llama-3.3-70b-versatile" (Return "d3"))).
  reflexivity.
Defined.

(** * Further properties of the histories *)

Lemma with_items_same (h : ChatHistory) : with_items h (items h) = h.
Proof. destruct h; reflexivity. Qed.

(** [append] either raises and leaves the receiver alone, or returns after
    putting the message behind what it retained. *)
Lemma append_cases (m : Message) (h : ChatHistory) :
  (len h = total_length h
   /\ (length (items h) <= evict_index (class_of h))%nat
   /\ fst (append m h) = h
   /\ is_return (snd (append m h)) = false)
  \/ (~ (len h = total_length h
         /\ (length (items h) <= evict_index (class_of h))%nat)
      /\ append m h = (with_items h (retained h ++ [m]), Return tt)).
Proof.
  unfold retained.
  destruct (Z.eqb_spec (len h) (total_length h)) as [Heq|Hne].
  - destruct (le_lt_dec (length (items h)) (evict_index (class_of h)))
      as [Hle|Hlt].
    + left. split; [exact Heq|]. split; [exact Hle|].
      unfold append, pop, list_pop.
      apply Z.eqb_eq in Heq. rewrite Heq.
      destruct (items h) as [|x l] eqn:E.
      * rewrite <- E, with_items_same. split; reflexivity.
      * rewrite (lookup_ge_None_2 (x :: l) _ Hle).
        rewrite <- E, with_items_same. split; reflexivity.
    + right. split; [lia|]. now apply append_full.
  - right. split; [tauto|]. now apply append_below.
Qed.

(** X1.  [append], of either class, raises exactly when the history is full
    ([len == total_length]) and holds no message at the position it evicts
    (0 for [ChatHistory], 1 for [FixedFirstChatHistory]); when it raises, the
    history is left exactly as it was. *)
Theorem append_raises_iff_nothing_to_evict (m : Message) (h : ChatHistory) :
  (is_return (snd (append m h)) = false
   <-> len h = total_length h
       /\ (length (items h) <= evict_index (class_of h))%nat)
  /\ (is_return (snd (append m h)) = false -> fst (append m h) = h).
Proof.
  destruct (append_cases m h) as [(H1 & H2 & H3 & H4)|[Hn Heq]].
  - split; [split; auto|auto].
  - rewrite Heq; simpl. split; [split|]; [discriminate|tauto|discriminate].
Qed.

(** X2.  When [append] returns, the new message is the last one, the class
    and the capacity are unchanged, and the length grows by one unless the
    history was full, in which case it stays the same. *)
Theorem append_returns_effect (m : Message) (h : ChatHistory) :
  is_return (snd (append m h)) = true ->
  last (items (fst (append m h))) = Some m
  /\ class_of (fst (append m h)) = class_of h
  /\ total_length (fst (append m h)) = total_length h
  /\ len (fst (append m h))
     = (if len h =? total_length h then len h else len h + 1).
Proof.
  destruct (append_cases m h) as [(H1 & H2 & H3 & H4)|[Hn Heq]].
  - rewrite H4. discriminate.
  - intros _. rewrite Heq; simpl.
    split; [apply last_snoc|]. split; [reflexivity|]. split; [reflexivity|].
    unfold retained.
    destruct (Z.eqb_spec (len h) (total_length h)) as [Hfull|Hfree];
      unfold len; simpl; rewrite length_app; simpl.
    + assert (Hlt : (evict_index (class_of h) < length (items h))%nat)
        by (destruct (le_lt_dec (length (items h)) (evict_index (class_of h)));
            [tauto|assumption]).
      rewrite (length_delete _ _ (lookup_lt_is_Some_2 _ _ Hlt)). lia.
    + lia.
Qed.

Lemma append_returns_effect_witness :
  last (items (fst (append (mkMessage "user" "c")
                      (mkHistory Plain
                         [mkMessage "system" "a"; mkMessage "user" "b"] 2))))
  = Some (mkMessage "user" "c")
  /\ class_of (fst (append (mkMessage "user" "c")
                      (mkHistory Plain
                         [mkMessage "system" "a"; mkMessage "user" "b"] 2)))
     = Plain
  /\ total_length (fst (append (mkMessage "user" "c")
                          (mkHistory Plain
                             [mkMessage "system" "a"; mkMessage "user" "b"] 2)))
     = 2
  /\ len (fst (append (mkMessage "user" "c")
                 (mkHistory Plain
                    [mkMessage "system" "a"; mkMessage "user" "b"] 2)))
     = 2.
Proof.
  apply (append_returns_effect (mkMessage "user" "c")
           (mkHistory Plain [mkMessage "system" "a"; mkMessage "user" "b"] 2)).
  reflexivity.
Defined.

(** A [ChatHistory] within its capacity is a sliding window. *)
Lemma plain_window (news l : list Message) (cap : Z) :
  1 <= cap ->
  Z.of_nat (length l) <= cap ->
  appends news (mkHistory Plain l cap)
  = (mkHistory Plain
       (drop (length (l ++ news) - Z.to_nat cap) (l ++ news)) cap,
     Return tt).
Proof.
  intros Hcap. revert l; induction news as [|m news IH]; intros l Hl.
  - simpl. rewrite app_nil_r.
    replace (length l - Z.to_nat cap)%nat with 0%nat by lia. reflexivity.
  - simpl.
    destruct (Z.eq_dec (Z.of_nat (length l)) cap) as [Heq|Hne].
    + destruct l as [|x l]; [simpl in Heq; lia|].
      rewrite append_full; [|exact Heq|simpl; lia]. simpl.
      unfold with_items; simpl.
      rewrite IH by (rewrite length_app; simpl in *; lia).
      rewrite <- app_assoc. simpl.
      rewrite !length_app. simpl in *.
      replace (S (length l + S (length news)) - Z.to_nat cap)%nat
        with (S (length l + S (length news) - Z.to_nat cap))%nat by lia.
      reflexivity.
    + rewrite append_below by (unfold len; simpl; lia).
      unfold with_items; simpl.
      rewrite IH by (rewrite length_app; simpl; lia).
      rewrite <- app_assoc. reflexivity.
Qed.

(** X3.  A [ChatHistory] of capacity at least 1, seeded with no more
    messages than its capacity, is a sliding window: after any sequence of
    appends it holds the most recent [total_length] messages of the seeds
    followed by the appended messages (all of them while they fit), in
    order, and no append fails. *)
Theorem plain_history_is_sliding_window
    (seeds news : list Message) (cap : Z) :
  1 <= cap ->
  Z.of_nat (length seeds) <= cap ->
  appends news (ChatHistory_init Plain (Some seeds) cap)
  = (mkHistory Plain
       (drop (length (seeds ++ news) - Z.to_nat cap) (seeds ++ news)) cap,
     Return tt).
Proof. intros H1 H2. now apply plain_window. Qed.

Lemma plain_history_is_sliding_window_witness :
  appends [mkMessage "user" "c"; mkMessage "user" "d"]
    (ChatHistory_init Plain
       (Some [mkMessage "system" "a"; mkMessage "user" "b"]) 3)
  = (mkHistory Plain
       (drop (length ([mkMessage "system" "a"; mkMessage "user" "b"]
                      ++ [mkMessage "user" "c"; mkMessage "user" "d"])
              - Z.to_nat 3)
          ([mkMessage "system" "a"; mkMessage "user" "b"]
           ++ [mkMessage "user" "c"; mkMessage "user" "d"])) 3,
     Return tt).
Proof.
  apply (plain_history_is_sliding_window
           [mkMessage "system" "a"; mkMessage "user" "b"]
           [mkMessage "user" "c"; mkMessage "user" "d"] 3).
  - lia.
  - simpl. lia.
Defined.

(** Behind its first message, a [FixedFirstChatHistory] of capacity [cap] is
    a [ChatHistory] of capacity [cap - 1]. *)
Lemma fixed_first_append_as_plain (m m0 : Message) (l : list Message)
    (cap : Z) :
  2 <= cap ->
  append m (mkHistory FixedFirst (m0 :: l) cap)
  = (mkHistory FixedFirst
       (m0 :: items (fst (append m (mkHistory Plain l (cap - 1))))) cap,
     Return tt)
  /\ append m (mkHistory Plain l (cap - 1))
     = (fst (append m (mkHistory Plain l (cap - 1))), Return tt)
  /\ class_of (fst (append m (mkHistory Plain l (cap - 1)))) = Plain
  /\ total_length (fst (append m (mkHistory Plain l (cap - 1)))) = cap - 1.
Proof.
  intros Hcap.
  destruct (Z.eq_dec (Z.of_nat (length l)) (cap - 1)) as [Heq|Hne].
  - destruct l as [|x l]; [simpl in Heq; lia|].
    rewrite (append_full m (mkHistory FixedFirst _ _));
      [|unfold len; simpl in *; lia|simpl; lia].
    rewrite (append_full m (mkHistory Plain _ _));
      [|unfold len; simpl in *; lia|simpl; lia].
    repeat split.
  - rewrite (append_below m (mkHistory FixedFirst _ _))
      by (unfold len; simpl; lia).
    rewrite (append_below m (mkHistory Plain _ _))
      by (unfold len; simpl; lia).
    repeat split.
Qed.

Lemma fixed_first_appends_as_plain (news : list Message) (m0 : Message)
    (cap : Z) :
  2 <= cap ->
  forall l : list Message,
    appends news (mkHistory FixedFirst (m0 :: l) cap)
    = (mkHistory FixedFirst
         (m0 :: items (fst (appends news (mkHistory Plain l (cap - 1))))) cap,
       Return tt)
    /\ snd (appends news (mkHistory Plain l (cap - 1))) = Return tt.
Proof.
  intros Hcap. induction news as [|m news IH]; intros l; simpl.
  - split; reflexivity.
  - destruct (fixed_first_append_as_plain m m0 l cap Hcap)
      as (-> & Hp & Hc & Ht).
    rewrite Hp.
    destruct (fst (append m (mkHistory Plain l (cap - 1))))
      as [cls l' cap'] eqn:E.
    simpl in Hc, Ht. subst cls cap'. simpl. apply IH.
Qed.

(** X4.  A [FixedFirstChatHistory] of capacity at least 2 that holds a first
    message behaves, behind that message, as a [ChatHistory] of capacity one
    less: any sequence of appends leaves the first message followed by what
    the same appends leave in the plain history, and fails in neither. *)
Theorem fixed_first_is_head_plus_plain_queue
    (news : list Message) (m0 : Message) (rest : list Message) (cap : Z) :
  2 <= cap ->
  appends news (ChatHistory_init FixedFirst (Some (m0 :: rest)) cap)
  = (mkHistory FixedFirst
       (m0 :: items (fst (appends news
                            (ChatHistory_init Plain (Some rest) (cap - 1)))))
       cap,
     Return tt)
  /\ snd (appends news (ChatHistory_init Plain (Some rest) (cap - 1)))
     = Return tt.
Proof.
  intros Hcap. apply (fixed_first_appends_as_plain news m0 cap Hcap rest).
Qed.

Lemma fixed_first_is_head_plus_plain_queue_witness :
  appends [mkMessage "assistant" "a"; mkMessage "user" "b"]
    (ChatHistory_init FixedFirst
       (Some [mkMessage "system" "s"; mkMessage "user" "u"]) 3)
  = (mkHistory FixedFirst
       (mkMessage "system" "s"
        :: items (fst (appends [mkMessage "assistant" "a"; mkMessage "user" "b"]
                         (ChatHistory_init Plain
                            (Some [mkMessage "user" "u"]) (3 - 1)))))
       3,
     Return tt)
  /\ snd (appends [mkMessage "assistant" "a"; mkMessage "user" "b"]
            (ChatHistory_init Plain (Some [mkMessage "user" "u"]) (3 - 1)))
     = Return tt.
Proof.
  apply (fixed_first_is_head_plus_plain_queue
           [mkMessage "assistant" "a"; mkMessage "user" "b"]
           (mkMessage "system" "s") [mkMessage "user" "u"] 3).
  lia.
Defined.

(** X5.  A [FixedFirstChatHistory] of capacity at least 2, seeded with a
    first message and no more messages than its capacity, holds after any
    sequence of appends its first seed followed by the most recent
    [total_length - 1] of the other seeds and the appended messages, in
    order; no append fails. *)
Theorem fixed_first_history_is_pinned_window
    (news : list Message) (m0 : Message) (rest : list Message) (cap : Z) :
  2 <= cap ->
  Z.of_nat (length (m0 :: rest)) <= cap ->
  appends news (ChatHistory_init FixedFirst (Some (m0 :: rest)) cap)
  = (mkHistory FixedFirst
       (m0 :: drop (length (rest ++ news) - Z.to_nat (cap - 1)) (rest ++ news))
       cap,
     Return tt).
Proof.
  intros Hcap Hlen. simpl in Hlen.
  destruct (fixed_first_appends_as_plain news m0 cap Hcap rest) as [Heq _].
  unfold ChatHistory_init. rewrite Heq.
  rewrite plain_window by lia. reflexivity.
Qed.

Lemma fixed_first_history_is_pinned_window_witness :
  appends [mkMessage "assistant" "a"; mkMessage "user" "b";
           mkMessage "assistant" "c"]
    (ChatHistory_init FixedFirst
       (Some [mkMessage "system" "s"; mkMessage "user" "u"]) 3)
  = (mkHistory FixedFirst
       [mkMessage "system" "s"; mkMessage "user" "b";
        mkMessage "assistant" "c"] 3,
     Return tt).
Proof.
  apply (fixed_first_history_is_pinned_window
           [mkMessage "assistant" "a"; mkMessage "user" "b";
            mkMessage "assistant" "c"]
           (mkMessage "system" "s") [mkMessage "user" "u"] 3).
  - lia.
  - simpl. lia.
Defined.

Lemma appends_beyond_capacity (cls : HistoryClass) (news l : list Message)
    (cap : Z) :
  cap < Z.of_nat (length l) ->
  appends news (mkHistory cls l cap) = (mkHistory cls (l ++ news) cap, Return tt).
Proof.
  revert l; induction news as [|m news IH]; intros l Hl; simpl.
  - now rewrite app_nil_r.
  - rewrite append_below by (unfold len; simpl; lia).
    unfold with_items; simpl.
    rewrite IH by (rewrite length_app; simpl; lia).
    now rewrite <- app_assoc.
Qed.

(** X6.  A history of either class whose [total_length] is below the number
    of messages it was constructed with never evicts: every append succeeds
    and the history is the seeds followed by all appended messages.  This is
    the case of the default [total_length = -1] and of every negative
    capacity, whatever the seeds. *)
Theorem history_below_its_length_never_evicts
    (cls : HistoryClass) (seeds : option (list Message)) (news : list Message)
    (cap : Z) :
  cap < Z.of_nat (length (items (ChatHistory_init cls seeds cap))) ->
  appends news (ChatHistory_init cls seeds cap)
  = (mkHistory cls (items (ChatHistory_init cls seeds cap) ++ news) cap,
     Return tt).
Proof.
  intros H. unfold ChatHistory_init in *. simpl in *.
  now apply appends_beyond_capacity.
Qed.

Lemma history_below_its_length_never_evicts_witness :
  appends [mkMessage "user" "a"; mkMessage "assistant" "b";
           mkMessage "user" "c"]
    (ChatHistory_init FixedFirst None (-1))
  = (mkHistory FixedFirst
       (items (ChatHistory_init FixedFirst None (-1))
        ++ [mkMessage "user" "a"; mkMessage "assistant" "b";
            mkMessage "user" "c"]) (-1),
     Return tt).
Proof.
  apply (history_below_its_length_never_evicts FixedFirst None
           [mkMessage "user" "a"; mkMessage "assistant" "b";
            mkMessage "user" "c"] (-1)).
  simpl. lia.
Defined.

(** ** Messages *)

Lemma append_cancel_l (p a b : string) : p +:+ a = p +:+ b -> a = b.
Proof.
  induction p as [|c p IH]; simpl; intros H; [exact H|].
  injection H as H. auto.
Qed.

Lemma list_ascii_of_append (a b : string) :
  list_ascii_of_string (a +:+ b)
  = list_ascii_of_string a ++ list_ascii_of_string b.
Proof. induction a as [|c a IH]; simpl; [reflexivity|now rewrite IH]. Qed.

Lemma list_ascii_of_string_inj (a b : string) :
  list_ascii_of_string a = list_ascii_of_string b -> a = b.
Proof.
  intros H. rewrite <- (string_of_list_ascii_of_string a),
    <- (string_of_list_ascii_of_string b). now rewrite H.
Qed.

Lemma append_cancel_r (s a b : string) : a +:+ s = b +:+ s -> a = b.
Proof.
  intros H. apply list_ascii_of_string_inj.
  apply (app_inv_tail (list_ascii_of_string s)).
  rewrite <- !list_ascii_of_append. now rewrite H.
Qed.

(** X7.  Under one tag, [build_prompt_structure] loses nothing: two calls
    that build the same message were given the same prompt and the same
    role. *)
Theorem build_prompt_structure_injective (p1 p2 r1 r2 tag : string) :
  build_prompt_structure p1 r1 tag = build_prompt_structure p2 r2 tag ->
  p1 = p2 /\ r1 = r2.
Proof.
  unfold build_prompt_structure. intros H. injection H as Hr Hc.
  split; [|exact Hr].
  destruct (is_empty_str tag); [exact Hc|].
  apply append_cancel_l, append_cancel_l, append_cancel_l in Hc.
  now apply append_cancel_r in Hc.
Qed.

Lemma build_prompt_structure_injective_witness :
  "fix the typo" = "fix the typo" /\ "user" = "user".
Proof.
  apply (build_prompt_structure_injective "fix the typo" "fix the typo"
           "user" "user" "critique").
  reflexivity.
Defined.

(** * Further properties of the loop of [run] *)

Lemma push3_after_first (m1 m2 r0 : Message) (rtl : list Message) :
  (length rtl <= 2)%nat ->
  push3 m2 (push3 m1 (r0 :: rtl)) = [r0; m1; m2].
Proof.
  destruct rtl as [|y [|z [|w rtl]]]; simpl; intros H; try lia; reflexivity.
Qed.

Lemma length_range (n : Z) : length (range n) = Z.to_nat n.
Proof. unfold range. now rewrite length_map, length_seq. Qed.

Section LoopProperties.

Context {Client : Type}.
Variable create :
  Client -> list Message -> string -> Client * outcome Response.

(** Opens one iteration: the sentinel case, the continuing case, the failed
    reflect request and the failed generate request, in this order. *)
Ltac loop_step a g :=
  rewrite for_loop_cons, loop_body_unfold;
  destruct (completions_create create (client a) g (model a))
    as [?c1 [?text|?e1]];
  [ cbv zeta;
    destruct (completions_create create _ _ (model a))
      as [?c2 [?critique|?e2]];
    [ destruct (contains "<OK>" _) eqn:?HOK | ]
  | ].

(** X8.  If, in a run with any [n_steps], every generate request returns a
    text and every reflect request returns a text without ["<OK>"], the run
    issues exactly [max(n_steps, 0)] generate requests and as many reflect
    requests, and returns the text of the last generate request (the empty
    string when there was none). *)
Theorem budget_exhaustion_any_steps (a : ReflectionAgent Client)
    (user_msg : string) (gsp rsp : option string) (n_steps : Z) :
  all_replied GENERATION any_text
    (run_trace (run create a user_msg gsp rsp n_steps)) = true ->
  all_replied REFLECTION lacks_OK
    (run_trace (run create a user_msg gsp rsp n_steps)) = true ->
  exists texts : list string,
    map reply (calls_of GENERATION
                 (run_trace (run create a user_msg gsp rsp n_steps)))
    = map Return texts
    /\ length texts = Z.to_nat n_steps
    /\ length (calls_of REFLECTION
                 (run_trace (run create a user_msg gsp rsp n_steps)))
       = Z.to_nat n_steps
    /\ run_result (run create a user_msg gsp rsp n_steps)
       = Return (default "" (last texts)).
Proof.
  unfold run. rewrite run_setup_frame3.
  set (fr0 := frame3 a _ _ "").
  assert (Hex := for_loop_exhausts create (range n_steps) a
                   [msg "system" (gen_sys_prompt gsp); msg "user" user_msg]
                   [msg "system" (ref_sys_prompt rsp)] "").
  fold fr0 in Hex. rewrite length_range in Hex.
  destruct (for_loop create (range n_steps) fr0) as [[fr res] tr].
  intros H1 H2.
  destruct res as [[]|e]; unfold run_trace, run_result in *; simpl in *;
    destruct (Hex H1 H2) as (texts & Hres & Hgen & Hlen & Href & Hfin);
    [|discriminate].
  exists texts. rewrite Hfin. auto.
Qed.

(** A reflect request answered with the sentinel ends the loop. *)
Lemma for_loop_sentinel (steps : list Z) :
  forall (a : ReflectionAgent Client) (g r : list Message) (fin : string)
         (i : nat) (stopping : Call) (critique : string),
    snd (for_loop create steps (frame3 a g r fin)) !! i = Some stopping ->
    stage stopping = REFLECTION ->
    reply stopping = Return critique ->
    has_OK critique = true ->
    exists (earlier : list Call) (gen_call : Call) (candidate : string),
      snd (for_loop create steps (frame3 a g r fin)) = earlier ++ [stopping]
      /\ length earlier = i
      /\ last earlier = Some gen_call
      /\ stage gen_call = GENERATION
      /\ reply gen_call = Return candidate
      /\ snd (fst (for_loop create steps (frame3 a g r fin))) = Return tt
      /\ final_generation (fst (fst (for_loop create steps (frame3 a g r fin))))
         = candidate.
Proof.
  induction steps as [|step rest IH];
    intros a g r fin i stopping critique.
  - simpl. discriminate.
  - loop_step a g.
    + simpl. destruct i as [|[|i]]; simpl; try discriminate.
      * intros [= <-]. discriminate.
      * intros [= <-] _ _ _. eexists [_], _, text. repeat split.
    + specialize (IH (moved a c2)
                    (push3 (msg "user" critique0)
                       (push3 (msg "assistant" text) g))
                    (push3 (msg "assistant" critique0)
                       (push3 (msg "user" text) r))
                    text).
      destruct (for_loop create rest _) as [[fr2 res] ev'].
      simpl in IH |- *. destruct i as [|[|i]]; simpl.
      * intros [= <-]. discriminate.
      * intros [= <-] _ [= <-] H. unfold has_OK in H. congruence.
      * intros Hi Hs Hr Hk.
        destruct (IH i stopping critique Hi Hs Hr Hk)
          as (earlier & gc & cand & -> & Hlen & Hlast & H1 & H2 & H3 & H4).
        eexists (_ :: _ :: earlier), gc, cand. repeat split; try assumption.
        -- simpl. now rewrite Hlen.
        -- rewrite !last_cons, Hlast. reflexivity.
    + simpl. destruct i as [|[|i]]; simpl; try discriminate.
      * intros [= <-]. discriminate.
      * intros [= <-] _. discriminate.
    + simpl. destruct i as [|i]; simpl; try discriminate.
      intros [= <-]. discriminate.
Qed.

(** X9.  In any run, at any step, a reflect request whose reply contains
    ["<OK>"] is the last request issued, and [run] returns the text of the
    generate request just before it. *)
Theorem sentinel_stops_at_any_step (a : ReflectionAgent Client)
    (user_msg : string) (gsp rsp : option string) (n_steps : Z)
    (i : nat) (stopping : Call) (critique : string) :
  run_trace (run create a user_msg gsp rsp n_steps) !! i = Some stopping ->
  stage stopping = REFLECTION ->
  reply stopping = Return critique ->
  has_OK critique = true ->
  exists (earlier : list Call) (gen_call : Call) (candidate : string),
    run_trace (run create a user_msg gsp rsp n_steps) = earlier ++ [stopping]
    /\ length earlier = i
    /\ last earlier = Some gen_call
    /\ stage gen_call = GENERATION
    /\ reply gen_call = Return candidate
    /\ run_result (run create a user_msg gsp rsp n_steps) = Return candidate.
Proof.
  unfold run. rewrite run_setup_frame3.
  set (fr0 := frame3 a _ _ "").
  assert (Hf := for_loop_sentinel (range n_steps) a
                  [msg "system" (gen_sys_prompt gsp); msg "user" user_msg]
                  [msg "system" (ref_sys_prompt rsp)] "" i stopping critique).
  fold fr0 in Hf.
  destruct (for_loop create (range n_steps) fr0) as [[fr res] tr].
  unfold run_trace, run_result.
  intros Hi Hs Hr Hk.
  destruct res as [[]|e]; simpl in *;
    destruct (Hf Hi Hs Hr Hk)
      as (earlier & gc & cand & Htr & Hlen & Hlast & H1 & H2 & H3 & H4);
    [|discriminate].
  exists earlier, gc, cand. rewrite H4. auto 10.
Qed.

Lemma push3_keeps_head (m r0 : Message) (rtl : list Message) :
  (length rtl <= 2)%nat ->
  exists rtl' : list Message,
    push3 m (r0 :: rtl) = r0 :: rtl'
    /\ (1 <= length rtl' <= 2)%nat.
Proof.
  destruct rtl as [|y [|z [|w rtl]]]; simpl; intros H; try lia;
    eexists; (split; [reflexivity|simpl; lia]).
Qed.

(** The two histories keep their shape through the loop: a first message
    that never changes and at most two more; every request is sent such a
    history. *)
Lemma for_loop_shape (steps : list Z) :
  forall (a : ReflectionAgent Client) (s x r0 : Message)
         (tl rtl : list Message) (fin : string),
    (length tl <= 1)%nat ->
    (length rtl <= 2)%nat ->
    (forall (i : nat) (c : Call),
        snd (for_loop create steps (frame3 a (s :: x :: tl) (r0 :: rtl) fin))
          !! i = Some c ->
        sent_model c = model a
        /\ sent c !! 0%nat
           = Some (match stage c with GENERATION => s | REFLECTION => r0 end)
        /\ (2 <= length (sent c) <= 3)%nat)
    /\ (exists (a' : ReflectionAgent Client) (tl' rtl' : list Message)
               (fin' : string),
          fst (fst (for_loop create steps
                      (frame3 a (s :: x :: tl) (r0 :: rtl) fin)))
          = frame3 a' (s :: tl') (r0 :: rtl') fin'
          /\ model a' = model a
          /\ (1 <= length tl' <= 2)%nat
          /\ (length rtl' <= 2)%nat).
Proof.
  induction steps as [|step rest IH]; intros a s x r0 tl rtl fin Htl Hrtl.
  - split; [intros i c; discriminate|].
    exists a, (x :: tl), rtl, fin. simpl. repeat split; lia.
  - assert (Hx : (length (x :: tl) <= 2)%nat) by (simpl; lia).
    loop_step a (s :: x :: tl).
    + destruct (push3_keeps_head (msg "user" text) r0 rtl Hrtl)
        as (r1 & -> & Hr1).
      destruct (push3_keeps_head (msg "assistant" text) s (x :: tl) Hx)
        as (g1 & -> & Hg1).
      split.
      * intros [|[|i]] c; simpl; try discriminate; intros [= <-]; simpl;
          repeat split; lia.
      * exists (moved a c2), g1, r1, text. simpl. repeat split; lia.
    + rewrite (push3_after_first _ _ s (x :: tl) Hx),
        (push3_after_first _ _ r0 rtl Hrtl).
      destruct (push3_keeps_head (msg "user" text) r0 rtl Hrtl)
        as (r1 & -> & Hr1).
      specialize (IH (moved a c2) s (msg "assistant" text) r0
                    [msg "user" critique]
                    [msg "user" text; msg "assistant" critique] text
                    (le_n 1) (le_n 2)).
      destruct (for_loop create rest _) as [[fr2 res] ev'].
      simpl in IH |- *. destruct IH as [IHc IHf].
      split; [|exact IHf].
      intros [|[|i]] c; simpl.
      * intros [= <-]; simpl. repeat split; lia.
      * intros [= <-]; simpl. repeat split; lia.
      * apply IHc.
    + destruct (push3_keeps_head (msg "user" text) r0 rtl Hrtl)
        as (r1 & -> & Hr1).
      destruct (push3_keeps_head (msg "assistant" text) s (x :: tl) Hx)
        as (g1 & -> & Hg1).
      split.
      * intros [|[|i]] c; simpl; try discriminate; intros [= <-]; simpl;
          repeat split; lia.
      * exists (moved a c2), g1, r1, text. simpl. repeat split; lia.
    + split.
      * intros [|i] c; simpl; try discriminate; intros [= <-]; simpl.
        repeat split; lia.
      * exists (moved a c1), (x :: tl), rtl, fin. simpl. repeat split; lia.
Qed.

(** X10.  Whatever [n_steps] and whatever the client answers, every request
    of a run names the agent's model and is sent two or three messages, the
    first of which is the system prompt of its stage: the context sent never
    grows with the number of steps. *)
Theorem every_request_is_bounded (a : ReflectionAgent Client)
    (user_msg : string) (gsp rsp : option string) (n_steps : Z)
    (i : nat) (c : Call) :
  run_trace (run create a user_msg gsp rsp n_steps) !! i = Some c ->
  sent_model c = model a
  /\ sent c !! 0%nat = Some (msg "system" (stage_prompt gsp rsp (stage c)))
  /\ (2 <= length (sent c) <= 3)%nat.
Proof.
  unfold run. rewrite run_setup_frame3.
  destruct (for_loop_shape (range n_steps) a
              (msg "system" (gen_sys_prompt gsp)) (msg "user" user_msg)
              (msg "system" (ref_sys_prompt rsp)) [] [] ""
              (le_0_n 1) (le_0_n 2)) as [Hc _].
  destruct (for_loop create (range n_steps) _) as [[fr res] tr].
  unfold run_trace. intros Hi.
  assert (H : tr !! i = Some c) by (destruct res; exact Hi).
  destruct (Hc i c H) as (H1 & H2 & H3).
  repeat split; try assumption; try lia.
  rewrite H2. destruct (stage c); reflexivity.
Qed.

(** X11.  However a run ends, by return or by exception, it leaves both
    histories as [FixedFirstChatHistory] of capacity 3 that still begin with
    their system prompt; the generation history holds two or three messages,
    the reflection history at most three, and the agent's model is
    unchanged. *)
Theorem run_leaves_bounded_histories (a : ReflectionAgent Client)
    (user_msg : string) (gsp rsp : option string) (n_steps : Z) :
  exists (gen_rest ref_rest : list Message),
    generation_history (run_frame (run create a user_msg gsp rsp n_steps))
    = mkHistory FixedFirst (msg "system" (gen_sys_prompt gsp) :: gen_rest) 3
    /\ reflection_history (run_frame (run create a user_msg gsp rsp n_steps))
       = mkHistory FixedFirst (msg "system" (ref_sys_prompt rsp) :: ref_rest) 3
    /\ (1 <= length gen_rest <= 2)%nat
    /\ (length ref_rest <= 2)%nat
    /\ model (self (run_frame (run create a user_msg gsp rsp n_steps)))
       = model a.
Proof.
  unfold run. rewrite run_setup_frame3.
  destruct (for_loop_shape (range n_steps) a
              (msg "system" (gen_sys_prompt gsp)) (msg "user" user_msg)
              (msg "system" (ref_sys_prompt rsp)) [] [] ""
              (le_0_n 1) (le_0_n 2))
    as [_ (a' & tl' & rtl' & fin' & Hfr & Hm & Ht & Hr)].
  destruct (for_loop create (range n_steps) _) as [[fr res] tr].
  simpl in Hfr. subst fr.
  exists tl', rtl'. destruct res; unfold run_frame; simpl; auto.
Qed.

(** What each reflect request of a loop is sent. *)
Lemma for_loop_reflect_contexts (steps : list Z) :
  forall (a : ReflectionAgent Client) (g : list Message) (r0 : Message)
         (rtl : list Message) (fin : string),
    (length rtl <= 2)%nat ->
    (forall rc : Call,
        calls_of REFLECTION
          (snd (for_loop create steps (frame3 a g (r0 :: rtl) fin)))
          !! 0%nat = Some rc ->
        exists (gc : Call) (cand : string),
          calls_of GENERATION
            (snd (for_loop create steps (frame3 a g (r0 :: rtl) fin)))
            !! 0%nat = Some gc
          /\ reply gc = Return cand
          /\ sent rc = push3 (msg "user" cand) (r0 :: rtl))
    /\ (forall (i : nat) (rc : Call),
          calls_of REFLECTION
            (snd (for_loop create steps (frame3 a g (r0 :: rtl) fin)))
            !! S i = Some rc ->
          exists (gc prev : Call) (cand crit : string),
            calls_of GENERATION
              (snd (for_loop create steps (frame3 a g (r0 :: rtl) fin)))
              !! S i = Some gc
            /\ reply gc = Return cand
            /\ calls_of REFLECTION
                 (snd (for_loop create steps (frame3 a g (r0 :: rtl) fin)))
                 !! i = Some prev
            /\ reply prev = Return crit
            /\ has_OK crit = false
            /\ sent rc = [r0; msg "assistant" crit; msg "user" cand]).
Proof.
  induction steps as [|step rest IH]; intros a g r0 rtl fin Hrtl.
  - split; [intros rc|intros i rc]; discriminate.
  - loop_step a g.
    + split; [|intros i rc; discriminate].
      intros rc [= <-]. exists (mkCall GENERATION g (model a) (Return text)), text.
      repeat split.
    + rewrite (push3_after_first _ _ r0 rtl Hrtl).
      specialize (IH (moved a c2)
                    (push3 (msg "user" critique)
                       (push3 (msg "assistant" text) g))
                    r0 [msg "user" text; msg "assistant" critique] text
                    (le_n 2)).
      destruct (for_loop create rest _) as [[fr2 res] ev'].
      simpl in IH |- *. destruct IH as [IH0 IHS].
      split.
      * intros rc [= <-].
        exists (mkCall GENERATION g (model a) (Return text)), text.
        repeat split.
      * intros [|i] rc Hrc.
        -- destruct (IH0 rc Hrc) as (gc & cand & H1 & H2 & H3).
           eexists gc, _, cand, critique. repeat split; try eassumption.
        -- destruct (IHS i rc Hrc)
             as (gc & prev & cand & crit & H1 & H2 & H3 & H4 & H5 & H6).
           exists gc, prev, cand, crit. auto 10.
    + split; [|intros i rc; discriminate].
      intros rc [= <-]. exists (mkCall GENERATION g (model a) (Return text)), text.
      repeat split.
    + split; [intros rc|intros i rc]; discriminate.
Qed.

(** X12.  In any run, the reflect request of a step is sent, as its last
    message, the text the generate request of the same step returned, with
    role [user]; the first reflect request is sent exactly the reflection
    system prompt and that message. *)
Theorem reflection_sees_latest_candidate (a : ReflectionAgent Client)
    (user_msg : string) (gsp rsp : option string) (n_steps : Z)
    (i : nat) (rc : Call) :
  calls_of REFLECTION (run_trace (run create a user_msg gsp rsp n_steps))
    !! i = Some rc ->
  exists (gc : Call) (cand : string),
    calls_of GENERATION (run_trace (run create a user_msg gsp rsp n_steps))
      !! i = Some gc
    /\ reply gc = Return cand
    /\ last (sent rc) = Some (msg "user" cand)
    /\ (i = 0%nat ->
        sent rc = [msg "system" (ref_sys_prompt rsp); msg "user" cand]).
Proof.
  unfold run. rewrite run_setup_frame3.
  destruct (for_loop_reflect_contexts (range n_steps) a
              [msg "system" (gen_sys_prompt gsp); msg "user" user_msg]
              (msg "system" (ref_sys_prompt rsp)) [] "" (le_0_n 2))
    as [H0 HS].
  destruct (for_loop create (range n_steps) _) as [[fr res] tr].
  unfold run_trace. intros Hi.
  assert (H : calls_of REFLECTION tr !! i = Some rc) by (destruct res; exact Hi).
  assert (Hg : forall g, calls_of GENERATION tr !! i = Some g ->
               calls_of GENERATION
                 (snd match res with
                      | Return _ => (fr, Return (final_generation fr), tr)
                      | Raise e => (fr, Raise e, tr)
                      end) !! i = Some g) by (destruct res; auto).
  simpl in H0, HS. destruct i as [|i].
  - destruct (H0 rc H) as (gc & cand & H1 & H2 & H3).
    exists gc, cand. rewrite H3. repeat split; auto.
  - destruct (HS i rc H) as (gc & prev & cand & crit & H1 & H2 & _ & _ & _ & H6).
    exists gc, cand. rewrite H6. repeat split; auto. discriminate.
Qed.

(** X13.  In any run, every reflect request after the first is sent exactly
    three messages: the reflection system prompt, the critique of the step
    before as an [assistant] message, and the candidate of its own step as a
    [user] message. *)
Theorem later_reflections_see_only_last_round (a : ReflectionAgent Client)
    (user_msg : string) (gsp rsp : option string) (n_steps : Z)
    (i : nat) (rc : Call) :
  calls_of REFLECTION (run_trace (run create a user_msg gsp rsp n_steps))
    !! S i = Some rc ->
  exists (gc prev : Call) (cand crit : string),
    calls_of GENERATION (run_trace (run create a user_msg gsp rsp n_steps))
      !! S i = Some gc
    /\ reply gc = Return cand
    /\ calls_of REFLECTION (run_trace (run create a user_msg gsp rsp n_steps))
         !! i = Some prev
    /\ reply prev = Return crit
    /\ has_OK crit = false
    /\ sent rc
       = [msg "system" (ref_sys_prompt rsp); msg "assistant" crit;
          msg "user" cand].
Proof.
  unfold run. rewrite run_setup_frame3.
  destruct (for_loop_reflect_contexts (range n_steps) a
              [msg "system" (gen_sys_prompt gsp); msg "user" user_msg]
              (msg "system" (ref_sys_prompt rsp)) [] "" (le_0_n 2))
    as [_ HS].
  destruct (for_loop create (range n_steps) _) as [[fr res] tr].
  unfold run_trace. destruct res as [[]|e]; simpl in *; apply HS.
Qed.

Lemma for_loop_alternates (steps : list Z) :
  forall (a : ReflectionAgent Client) (g r : list Message) (fin : string),
    map stage (snd (for_loop create steps (frame3 a g r fin)))
    = take (length (snd (for_loop create steps (frame3 a g r fin))))
        (alternating (length steps))
    /\ (length (snd (for_loop create steps (frame3 a g r fin)))
        <= 2 * length steps)%nat.
Proof.
  induction steps as [|step rest IH]; intros a g r fin.
  - split; [reflexivity|simpl; lia].
  - loop_step a g.
    + split; [reflexivity|simpl; lia].
    + specialize (IH (moved a c2)
                    (push3 (msg "user" critique)
                       (push3 (msg "assistant" text) g))
                    (push3 (msg "assistant" critique)
                       (push3 (msg "user" text) r))
                    text).
      destruct (for_loop create rest _) as [[fr2 res] ev'].
      simpl in IH |- *. destruct IH as [IH1 IH2].
      split; [now rewrite IH1|lia].
    + split; [reflexivity|simpl; lia].
    + split; [reflexivity|simpl; lia].
Qed.

(** X14.  The requests of a run alternate, generate then reflect, starting
    with a generate request, and there are at most [2 * max(n_steps, 0)] of
    them. *)
Theorem requests_alternate_within_budget (a : ReflectionAgent Client)
    (user_msg : string) (gsp rsp : option string) (n_steps : Z) :
  map stage (run_trace (run create a user_msg gsp rsp n_steps))
  = take (length (run_trace (run create a user_msg gsp rsp n_steps)))
      (alternating (Z.to_nat n_steps))
  /\ (length (run_trace (run create a user_msg gsp rsp n_steps))
      <= 2 * Z.to_nat n_steps)%nat.
Proof.
  unfold run. rewrite run_setup_frame3.
  destruct (for_loop_alternates (range n_steps) a
              [msg "system" (gen_sys_prompt gsp); msg "user" user_msg]
              [msg "system" (ref_sys_prompt rsp)] "") as [H1 H2].
  rewrite length_range in H1, H2.
  destruct (for_loop create (range n_steps) _) as [[fr res] tr].
  unfold run_trace. destruct res; simpl in *; auto.
Qed.

Lemma for_loop_raise_origin (steps : list Z) :
  forall (a : ReflectionAgent Client) (g r : list Message) (fin : string)
         (e : exn),
    snd (fst (for_loop create steps (frame3 a g r fin))) = Raise e ->
    exists failing : Call,
      last (snd (for_loop create steps (frame3 a g r fin))) = Some failing
      /\ reply failing = Raise e.
Proof.
  induction steps as [|step rest IH]; intros a g r fin e.
  - simpl. discriminate.
  - loop_step a g.
    + simpl. discriminate.
    + specialize (IH (moved a c2)
                    (push3 (msg "user" critique)
                       (push3 (msg "assistant" text) g))
                    (push3 (msg "assistant" critique)
                       (push3 (msg "user" text) r))
                    text e).
      destruct (for_loop create rest _) as [[fr2 res] ev'].
      simpl in IH |- *. intros Hres.
      destruct (IH Hres) as (failing & Hlast & Hrep).
      exists failing. rewrite !last_cons, Hlast. auto.
    + simpl. intros [= <-]. eexists. split; reflexivity.
    + simpl. intros [= <-]. eexists. split; reflexivity.
Qed.

(** X15.  [run] raises only what a request raised: if [run] ends with an
    exception, the last request of the run failed with that exception.  The
    appends to the two histories never raise inside [run]. *)
Theorem run_raises_only_what_a_request_raised (a : ReflectionAgent Client)
    (user_msg : string) (gsp rsp : option string) (n_steps : Z) (e : exn) :
  run_result (run create a user_msg gsp rsp n_steps) = Raise e ->
  exists failing : Call,
    last (run_trace (run create a user_msg gsp rsp n_steps)) = Some failing
    /\ reply failing = Raise e.
Proof.
  unfold run. rewrite run_setup_frame3.
  assert (Hf := for_loop_raise_origin (range n_steps) a
                  [msg "system" (gen_sys_prompt gsp); msg "user" user_msg]
                  [msg "system" (ref_sys_prompt rsp)] "" e).
  destruct (for_loop create (range n_steps) _) as [[fr res] tr].
  unfold run_trace, run_result.
  destruct res as [[]|e']; simpl in *; [discriminate|].
  intros [= ->]. apply Hf. reflexivity.
Qed.

Lemma for_loop_returns_last (steps : list Z) :
  forall (a : ReflectionAgent Client) (g r : list Message) (fin : string),
    snd (fst (for_loop create steps (frame3 a g r fin))) = Return tt ->
    match last (calls_of GENERATION
                  (snd (for_loop create steps (frame3 a g r fin)))) with
    | None => steps = []
    | Some c =>
        reply c
        = Return (final_generation
                    (fst (fst (for_loop create steps (frame3 a g r fin)))))
    end.
Proof.
  induction steps as [|step rest IH]; intros a g r fin.
  - reflexivity.
  - loop_step a g.
    + reflexivity.
    + specialize (IH (moved a c2)
                    (push3 (msg "user" critique)
                       (push3 (msg "assistant" text) g))
                    (push3 (msg "assistant" critique)
                       (push3 (msg "user" text) r))
                    text).
      destruct (for_loop create rest _) as [[fr2 res] ev'] eqn:E.
      simpl in IH |- *. intros Hres. specialize (IH Hres).
      rewrite last_cons.
      destruct (last (calls_of GENERATION ev')) as [c|]; [exact IH|].
      subst rest. simpl in E. injection E as <- _ _. reflexivity.
    + simpl. discriminate.
    + simpl. discriminate.
Qed.

(** X16.  When a run with [n_steps >= 1] returns, at least one generate
    request was issued and the value returned is the text the last generate
    request returned. *)
Theorem run_returns_last_generated_text (a : ReflectionAgent Client)
    (user_msg : string) (gsp rsp : option string) (n_steps : Z)
    (result : string) :
  1 <= n_steps ->
  run_result (run create a user_msg gsp rsp n_steps) = Return result ->
  exists c : Call,
    last (calls_of GENERATION
            (run_trace (run create a user_msg gsp rsp n_steps))) = Some c
    /\ reply c = Return result.
Proof.
  intros Hn. unfold run. rewrite run_setup_frame3.
  assert (Hf := for_loop_returns_last (range n_steps) a
                  [msg "system" (gen_sys_prompt gsp); msg "user" user_msg]
                  [msg "system" (ref_sys_prompt rsp)] "").
  destruct (range_pos n_steps Hn) as [rest Hrange]. rewrite Hrange in *.
  destruct (for_loop create (0 :: rest) _) as [[fr res] tr].
  unfold run_trace, run_result.
  destruct res as [[]|e']; simpl in *; [|discriminate].
  intros [= <-]. specialize (Hf eq_refl).
  destruct (last (calls_of GENERATION tr)) as [c|]; [|discriminate].
  exists c. auto.
Qed.

(** X17.  If the service answers the first request of a run with an empty
    list of choices, [run] (with [n_steps >= 1]) raises [IndexError] from
    [response.choices[0]] after that single request, with both histories
    still as seeded. *)
Theorem run_on_empty_choices (a : ReflectionAgent Client)
    (user_msg : string) (gsp rsp : option string) (n_steps : Z)
    (c' : Client) :
  1 <= n_steps ->
  create (client a)
    [msg "system" (gen_sys_prompt gsp); msg "user" user_msg] (model a)
  = (c', Return {| choices := [] |}) ->
  run create a user_msg gsp rsp n_steps
  = (frame3 (moved a c')
       [msg "system" (gen_sys_prompt gsp); msg "user" user_msg]
       [msg "system" (ref_sys_prompt rsp)] "",
     Raise (IndexError "list index out of range"),
     [mkCall GENERATION
        [msg "system" (gen_sys_prompt gsp); msg "user" user_msg] (model a)
        (Raise (IndexError "list index out of range"))]).
Proof.
  intros Hn Hc. unfold run. rewrite run_setup_frame3.
  destruct (range_pos n_steps Hn) as [rest ->].
  rewrite for_loop_cons, loop_body_unfold.
  unfold completions_create at 1. rewrite Hc. reflexivity.
Qed.

(** X18.  If the first choice of the answer to the first request holds no
    content (Python's [None]), the request counts as having returned the
    text ["None"]: a reflect request follows, and it is sent the reflection
    system prompt and the user message ["None"]. *)
Theorem run_on_missing_content (a : ReflectionAgent Client)
    (user_msg : string) (gsp rsp : option string) (n_steps : Z)
    (c' : Client) (others : list (option string)) :
  1 <= n_steps ->
  create (client a)
    [msg "system" (gen_sys_prompt gsp); msg "user" user_msg] (model a)
  = (c', Return {| choices := None :: others |}) ->
  exists (answer : outcome string),
    run_trace (run create a user_msg gsp rsp n_steps) !! 0%nat
    = Some (mkCall GENERATION
              [msg "system" (gen_sys_prompt gsp); msg "user" user_msg]
              (model a) (Return "None"))
    /\ run_trace (run create a user_msg gsp rsp n_steps) !! 1%nat
       = Some (mkCall REFLECTION
                 [msg "system" (ref_sys_prompt rsp); msg "user" "None"]
                 (model a) answer).
Proof.
  intros Hn Hc.
  assert (Hcc : completions_create create (client a)
                  [msg "system" (gen_sys_prompt gsp); msg "user" user_msg]
                  (model a) = (c', Return "None"))
    by (unfold completions_create; rewrite Hc; reflexivity).
  unfold run. rewrite run_setup_frame3.
  destruct (range_pos n_steps Hn) as [rest ->].
  rewrite for_loop_cons, loop_body_unfold, Hcc.
  cbv zeta. rewrite push3_one.
  destruct (completions_create create c' _ (model a)) as [c2 [critique|e]].
  - destruct (contains "<OK>" critique).
    + exists (Return critique). split; reflexivity.
    + destruct (for_loop create rest _) as [[fr2 res] ev'].
      exists (Return critique). destruct res; split; reflexivity.
  - exists (Raise e). split; reflexivity.
Qed.

End LoopProperties.


(** X20.  A [FixedFirstChatHistory] of capacity at least 2 that is
    constructed empty pins the first message appended to it: after that
    message and any further appends it holds that message followed by the
    most recent [total_length - 1] of the later ones, and no append fails. *)
Theorem fixed_first_pins_first_append
    (m : Message) (news : list Message) (cap : Z) :
  2 <= cap ->
  appends (m :: news) (ChatHistory_init FixedFirst None cap)
  = (mkHistory FixedFirst
       (m :: drop (length news - Z.to_nat (cap - 1)) news) cap,
     Return tt).
Proof.
  intros Hcap. simpl appends.
  rewrite append_below by (unfold len; simpl; lia).
  unfold with_items; simpl.
  destruct (fixed_first_appends_as_plain news m cap Hcap []) as [-> _].
  rewrite plain_window by (simpl; lia). reflexivity.
Qed.

Lemma fixed_first_pins_first_append_witness :
  appends [mkMessage "system" "s"; mkMessage "user" "a";
           mkMessage "assistant" "b"; mkMessage "user" "c"]
    (ChatHistory_init FixedFirst None 3)
  = (mkHistory FixedFirst
       [mkMessage "system" "s"; mkMessage "assistant" "b";
        mkMessage "user" "c"] 3,
     Return tt).
Proof.
  apply (fixed_first_pins_first_append (mkMessage "system" "s")
           [mkMessage "user" "a"; mkMessage "assistant" "b";
            mkMessage "user" "c"] 3).
  lia.
Defined.

Section FailureProperties.

Context {Client : Type}.
Variable create :
  Client -> list Message -> string -> Client * outcome Response.

(** A failed request leaves the history of its stage as it was sent. *)
Lemma for_loop_failure_history (steps : list Z) :
  forall (a : ReflectionAgent Client) (g r : list Message) (fin : string)
         (i : nat) (failing : Call) (e : exn),
    snd (for_loop create steps (frame3 a g r fin)) !! i = Some failing ->
    reply failing = Raise e ->
    sent failing
    = items (match stage failing with
             | GENERATION =>
                 generation_history
                   (fst (fst (for_loop create steps (frame3 a g r fin))))
             | REFLECTION =>
                 reflection_history
                   (fst (fst (for_loop create steps (frame3 a g r fin))))
             end).
Proof.
  induction steps as [|step rest IH]; intros a g r fin i failing e.
  - simpl. discriminate.
  - rewrite for_loop_cons, loop_body_unfold.
    destruct (completions_create create (client a) g (model a))
      as [c1 [text|e1]].
    2:{ simpl. destruct i as [|i]; simpl; [|discriminate].
        intros [= <-] _. reflexivity. }
    cbv zeta.
    destruct (completions_create create c1 _ (model a))
      as [c2 [critique|e2]].
    2:{ simpl. destruct i as [|[|i]]; simpl; try discriminate.
        - intros [= <-]; discriminate.
        - intros [= <-] _. reflexivity. }
    destruct (contains "<OK>" critique) eqn:HOK.
    { simpl. destruct i as [|[|i]]; simpl; try discriminate;
        intros [= <-]; discriminate. }
    specialize (IH (moved a c2)
                  (push3 (msg "user" critique) (push3 (msg "assistant" text) g))
                  (push3 (msg "assistant" critique) (push3 (msg "user" text) r))
                  text).
    destruct (for_loop create rest _) as [[fr2 res] ev'].
    simpl in IH |- *.
    destruct i as [|[|i]]; simpl; try (intros [= <-]; discriminate).
    apply IH.
Qed.

(** X21.  When a request of a run fails, the history of its stage is left
    exactly as it was sent: nothing is appended to it after the failure, and
    nothing sent is taken back. *)
Theorem failed_request_history_is_untouched (a : ReflectionAgent Client)
    (user_msg : string) (gsp rsp : option string) (n_steps : Z)
    (i : nat) (failing : Call) (e : exn) :
  run_trace (run create a user_msg gsp rsp n_steps) !! i = Some failing ->
  reply failing = Raise e ->
  sent failing
  = items (match stage failing with
           | GENERATION =>
               generation_history
                 (run_frame (run create a user_msg gsp rsp n_steps))
           | REFLECTION =>
               reflection_history
                 (run_frame (run create a user_msg gsp rsp n_steps))
           end).
Proof.
  unfold run. rewrite run_setup_frame3.
  assert (Hf := for_loop_failure_history (range n_steps) a
                  [msg "system" (gen_sys_prompt gsp); msg "user" user_msg]
                  [msg "system" (ref_sys_prompt rsp)] "" i failing e).
  destruct (for_loop create (range n_steps) _) as [[fr res] tr].
  unfold run_trace, run_frame.
  destruct res as [[]|e']; simpl in *; exact Hf.
Qed.

End FailureProperties.

(** ** The further loop theorems on the scripted client *)

Lemma budget_exhaustion_any_steps_witness :
  exists texts : list string,
    map reply (calls_of GENERATION
                 (run_trace (Stub.run [Stub.says "d1"; Stub.says "k1";
                                       Stub.says "d2"; Stub.says "k2"] "hi" 2)))
    = map Return texts
    /\ length texts = Z.to_nat 2
    /\ length (calls_of REFLECTION
                 (run_trace (Stub.run [Stub.says "d1"; Stub.says "k1";
                                       Stub.says "d2"; Stub.says "k2"] "hi" 2)))
       = Z.to_nat 2
    /\ run_result (Stub.run [Stub.says "d1"; Stub.says "k1";
                             Stub.says "d2"; Stub.says "k2"] "hi" 2)
       = Return (default "" (last texts)).
Proof.
  apply (budget_exhaustion_any_steps Stub.chat_completions_create
           (Stub.agent [Stub.says "d1"; Stub.says "k1";
                        Stub.says "d2"; Stub.says "k2"]) "hi" None None 2).
  - reflexivity.
  - reflexivity.
Defined.

Lemma sentinel_stops_at_any_step_witness :
  exists (earlier : list Call) (gen_call : Call) (candidate : string),
    run_trace (Stub.run [Stub.says "d1"; Stub.says "k1"; Stub.says "d2";
                         Stub.says "<OK>"; Stub.says "d3"] "hi" 5)
    = earlier
      ++ [mkCall REFLECTION
            [msg "system" (ref_sys_prompt None); msg "assistant" "k1";
             msg "user" "d2"]
            "llama-3.3-70b-versatile" (Return "<OK>")]
    /\ length earlier = 3%nat
    /\ last earlier = Some gen_call
    /\ stage gen_call = GENERATION
    /\ reply gen_call = Return candidate
    /\ run_result (Stub.run [Stub.says "d1"; Stub.says "k1"; Stub.says "d2";
                             Stub.says "<OK>"; Stub.says "d3"] "hi" 5)
       = Return candidate.
Proof.
  apply (sentinel_stops_at_any_step Stub.chat_completions_create
           (Stub.agent [Stub.says "d1"; Stub.says "k1"; Stub.says "d2";
                        Stub.says "<OK>"; Stub.says "d3"])
           "hi" None None 5 3
           (mkCall REFLECTION
              [msg "system" (ref_sys_prompt None); msg "assistant" "k1";
               msg "user" "d2"]
              "llama-3.3-70b-versatile" (Return "<OK>"))
           "<OK>").
  - reflexivity.
  - reflexivity.
  - reflexivity.
  - reflexivity.
Defined.

Lemma every_request_is_bounded_witness :
  "llama-3.3-70b-versatile" = "llama-3.3-70b-versatile"
  /\ [msg "system" (gen_sys_prompt None); msg "assistant" "d2";
      msg "user" "k2"] !! 0%nat
     = Some (msg "system" (stage_prompt None None GENERATION))
  /\ (2 <= 3 <= 3)%nat.
Proof.
  apply (every_request_is_bounded Stub.chat_completions_create
           (Stub.agent [Stub.says "d1"; Stub.says "k1"; Stub.says "d2";
                        Stub.says "k2"; Stub.says "d3"; Stub.says "k3"])
           "hi" None None 3 4
           (mkCall GENERATION
              [msg "system" (gen_sys_prompt None); msg "assistant" "d2";
               msg "user" "k2"]
              "llama-3.3-70b-versatile" (Return "d3"))).
  reflexivity.
Defined.

Lemma reflection_sees_latest_candidate_witness :
  exists (gc : Call) (cand : string),
    calls_of GENERATION
      (run_trace (Stub.run [Stub.says "d1"; Stub.says "k1"; Stub.says "d2";
                            Stub.says "k2"] "hi" 2))
      !! 1%nat = Some gc
    /\ reply gc = Return cand
    /\ last [msg "system" (ref_sys_prompt None); msg "assistant" "k1";
             msg "user" "d2"]
       = Some (msg "user" cand)
    /\ (1%nat = 0%nat ->
        [msg "system" (ref_sys_prompt None); msg "assistant" "k1";
         msg "user" "d2"]
        = [msg "system" (ref_sys_prompt None); msg "user" cand]).
Proof.
  apply (reflection_sees_latest_candidate Stub.chat_completions_create
           (Stub.agent [Stub.says "d1"; Stub.says "k1"; Stub.says "d2";
                        Stub.says "k2"])
           "hi" None None 2 1
           (mkCall REFLECTION
              [msg "system" (ref_sys_prompt None); msg "assistant" "k1";
               msg "user" "d2"]
              "llama-3.3-70b-versatile" (Return "k2"))).
  reflexivity.
Defined.

Lemma later_reflections_see_only_last_round_witness :
  exists (gc prev : Call) (cand crit : string),
    calls_of GENERATION
      (run_trace (Stub.run [Stub.says "d1"; Stub.says "k1"; Stub.says "d2";
                            Stub.says "k2"] "hi" 2))
      !! 1%nat = Some gc
    /\ reply gc = Return cand
    /\ calls_of REFLECTION
         (run_trace (Stub.run [Stub.says "d1"; Stub.says "k1"; Stub.says "d2";
                               Stub.says "k2"] "hi" 2))
         !! 0%nat = Some prev
    /\ reply prev = Return crit
    /\ has_OK crit = false
    /\ [msg "system" (ref_sys_prompt None); msg "assistant" "k1";
        msg "user" "d2"]
       = [msg "system" (ref_sys_prompt None); msg "assistant" crit;
          msg "user" cand].
Proof.
  apply (later_reflections_see_only_last_round Stub.chat_completions_create
           (Stub.agent [Stub.says "d1"; Stub.says "k1"; Stub.says "d2";
                        Stub.says "k2"])
           "hi" None None 2 0
           (mkCall REFLECTION
              [msg "system" (ref_sys_prompt None); msg "assistant" "k1";
               msg "user" "d2"]
              "llama-3.3-70b-versatile" (Return "k2"))).
  reflexivity.
Defined.

Lemma run_raises_only_what_a_request_raised_witness :
  exists failing : Call,
    last (run_trace (Stub.run [Stub.says "d1"; Raise (ServiceError "quota")]
                       "hi" 4)) = Some failing
    /\ reply failing = Raise (ServiceError "quota").
Proof.
  apply (run_raises_only_what_a_request_raised Stub.chat_completions_create
           (Stub.agent [Stub.says "d1"; Raise (ServiceError "quota")])
           "hi" None None 4 (ServiceError "quota")).
  reflexivity.
Defined.

Lemma run_returns_last_generated_text_witness :
  exists c : Call,
    last (calls_of GENERATION
            (run_trace (Stub.run [Stub.says "d1"; Stub.says "k1";
                                  Stub.says "d2"; Stub.says "<OK>"] "hi" 4)))
    = Some c
    /\ reply c = Return "d2".
Proof.
  apply (run_returns_last_generated_text Stub.chat_completions_create
           (Stub.agent [Stub.says "d1"; Stub.says "k1";
                        Stub.says "d2"; Stub.says "<OK>"])
           "hi" None None 4 "d2").
  - lia.
  - reflexivity.
Defined.

Lemma run_on_empty_choices_witness :
  Stub.run [Return {| choices := [] |}; Stub.says "unused"] "hi" 2
  = (frame3 (moved (Stub.agent [Return {| choices := [] |}; Stub.says "unused"])
               [Stub.says "unused"])
       [msg "system" (gen_sys_prompt None); msg "user" "hi"]
       [msg "system" (ref_sys_prompt None)] "",
     Raise (IndexError "list index out of range"),
     [mkCall GENERATION
        [msg "system" (gen_sys_prompt None); msg "user" "hi"]
        "llama-3.3-70b-versatile"
        (Raise (IndexError "list index out of range"))]).
Proof.
  apply (run_on_empty_choices Stub.chat_completions_create
           (Stub.agent [Return {| choices := [] |}; Stub.says "unused"])
           "hi" None None 2 [Stub.says "unused"]).
  - lia.
  - reflexivity.
Defined.

Lemma run_on_missing_content_witness :
  exists (answer : outcome string),
    run_trace (Stub.run [Return {| choices := [None] |}; Stub.says "<OK>"]
                 "hi" 2) !! 0%nat
    = Some (mkCall GENERATION
              [msg "system" (gen_sys_prompt None); msg "user" "hi"]
              "llama-3.3-70b-versatile" (Return "None"))
    /\ run_trace (Stub.run [Return {| choices := [None] |}; Stub.says "<OK>"]
                    "hi" 2) !! 1%nat
       = Some (mkCall REFLECTION
                 [msg "system" (ref_sys_prompt None); msg "user" "None"]
                 "llama-3.3-70b-versatile" answer).
Proof.
  apply (run_on_missing_content Stub.chat_completions_create
           (Stub.agent [Return {| choices := [None] |}; Stub.says "<OK>"])
           "hi" None None 2 [Stub.says "<OK>"] []).
  - lia.
  - reflexivity.
Defined.

Lemma failed_request_history_is_untouched_witness :
  [msg "system" (gen_sys_prompt None); msg "assistant" "d1"; msg "user" "k1"]
  = items (generation_history
             (run_frame (Stub.run [Stub.says "d1"; Stub.says "k1";
                                   Raise (ServiceError "timeout")] "hi" 3))).
Proof.
  apply (failed_request_history_is_untouched Stub.chat_completions_create
           (Stub.agent [Stub.says "d1"; Stub.says "k1";
                        Raise (ServiceError "timeout")])
           "hi" None None 3 2
           (mkCall GENERATION
              [msg "system" (gen_sys_prompt None); msg "assistant" "d1";
               msg "user" "k1"]
              "llama-3.3-70b-versatile" (Raise (ServiceError "timeout")))
           (ServiceError "timeout")).
  - reflexivity.
  - reflexivity.
Defined.
